(** * Fiscal invoice issuance: currency resolver, invoice issuer, webhook reconciler

    A shallow embedding of

      - [src/services/currency-conversion.service.ts]  (module [Currency]),
      - [src/services/fiscal-nacional.ts] and
        [src/services/nfse.service.ts]                 (module [Issuer]),
      - the [POST /webhook] handler of [src/routes/fiscal/index.ts]
                                                       (module [Reconciler]),

    together with the few JavaScript built-ins those files call (module [JS]).

    Conventions.
      - A JavaScript [number] that carries money or a rate is a binary64
        float ([PrimFloat.float]); its arithmetic is the kernel's IEEE 754
        arithmetic, the one the JavaScript engine uses.
      - A [Date] is its time value, an integer number of milliseconds since
        the epoch ([Z]); the local time zone is taken to be UTC.
      - A string is a sequence of bytes (UTF-8); [toUpperCase] maps the ASCII
        letters only.
      - An optional property, [null] and [undefined] are [option].
      - [await] is sequencing: every function below is sequential, as the
        source is.
      - A table is the list of its rows, in insertion order.  The storage
        engine's own checks (column lengths, uniqueness, foreign keys) are
        outside the embedding; a statement the engine rejects is represented
        by the environment's [db_error]. *)

From Stdlib Require Import ZArith List String Ascii Bool Lia Floats QArith.
From Stdlib Require Import DecimalString.
Import ListNotations.

Set Warnings "-inexact-float".
Local Open Scope string_scope.
Local Open Scope Z_scope.

(* ====================================================================== *)
(** ** Outcomes of a call *)

(** A call returns a value, throws, or is still running when the fuel of the
    model is spent (only [getPTAXRate] consumes fuel).  What is thrown is
    kept as a string: the message of an [Error] the code builds, or the name
    of the built-in that threw. *)
Inductive Outcome (A : Type) : Type :=
| Returned (a : A)
| Thrown (message : string)
| OutOfFuel.

Arguments Returned {A} a.
Arguments Thrown {A} message.
Arguments OutOfFuel {A}.

(* ====================================================================== *)
(** ** JavaScript built-ins used by the services *)

Module JS.

(** *** Truthiness *)

(** [!!s] for a string that may be absent: absent and empty are falsy. *)
Definition truthy_str (s : option string) : bool :=
  match s with
  | Some s' => negb (s' =? "")%string
  | None => false
  end.

(** [!!x] for a number: [0], [-0] and [NaN] are falsy. *)
Definition truthy_num (x : float) : bool :=
  negb (PrimFloat.is_nan x) && negb (PrimFloat.eqb x 0%float).

(** The string itself, where the code has established that it is present. *)
Definition known (s : option string) : string :=
  match s with
  | Some s' => s'
  | None => ""
  end.

(** [a || b] on optional strings. *)
Definition or_str (a b : option string) : option string :=
  if truthy_str a then a else b.

(** [a || null]. *)
Definition or_null (a : option string) : option string :=
  if truthy_str a then a else None.

(** *** Strings *)

Definition upper_ascii (c : ascii) : ascii :=
  let n := nat_of_ascii c in
  if (97 <=? n)%nat && (n <=? 122)%nat then ascii_of_nat (n - 32) else c.

(** [String.prototype.toUpperCase], on ASCII letters. *)
Fixpoint toUpperCase (s : string) : string :=
  match s with
  | EmptyString => EmptyString
  | String c s' => String (upper_ascii c) (toUpperCase s')
  end.

Definition is_digit (c : ascii) : bool :=
  let n := nat_of_ascii c in (48 <=? n)%nat && (n <=? 57)%nat.

(** [s.replace(/\D/g, "")]: the digits of [s], in order. *)
Fixpoint digits_only (s : string) : string :=
  match s with
  | EmptyString => EmptyString
  | String c s' => if is_digit c then String c (digits_only s') else digits_only s'
  end.

(** [s.split("T")[0]]: the part of [s] before its first ["T"]. *)
Fixpoint before_T (s : string) : string :=
  match s with
  | EmptyString => EmptyString
  | String c s' => if Ascii.eqb c "T" then EmptyString else String c (before_T s')
  end.

(** [String(n)] for an integer [n]. *)
Definition string_of_Z (n : Z) : string :=
  NilZero.string_of_int (Z.to_int n).

Fixpoint repeat_zero (n : nat) : string :=
  match n with
  | O => EmptyString
  | S n' => String "0" (repeat_zero n')
  end.

(** [s.padStart(n, "0")]. *)
Definition padStart0 (n : nat) (s : string) : string :=
  repeat_zero (n - String.length s) ++ s.

(** [parts.filter(Boolean).join(sep)] on optional strings. *)
Definition join_present (sep : string) (parts : list (option string)) : string :=
  String.concat sep
    (flat_map (fun p => match p with
                        | Some s => if (s =? "")%string then [] else [s]
                        | None => []
                        end) parts).

(** [crypto.timingSafeEqual] on two buffers of equal length: the bytes are
    compared without an early exit.  (On buffers of different lengths it
    throws; the route checks the lengths first.) *)
Fixpoint differing_bits (a b : string) : N :=
  match a, b with
  | String x a', String y b' =>
      N.lor (N.lxor (N_of_ascii x) (N_of_ascii y)) (differing_bits a' b')
  | _, _ => 0%N
  end.

Definition timingSafeEqual (a b : string) : bool :=
  (differing_bits a b =? 0)%N.

(** *** Number.prototype.toFixed *)

(** The engine's [Number::toString], used by [toFixed] outside its own range
    and by template literals; it is not reimplemented here. *)
Section ToFixed.
Variable Number_toString : float -> string.

(** The digits of [n] with a point before the last [f] of them, padded with
    leading zeros to [f + 1] digits. *)
Definition fixed_digits (n : Z) (f : nat) : string :=
  let m := padStart0 (S f) (NilZero.string_of_uint (N.to_uint (Z.to_N n))) in
  match f with
  | O => m
  | _ => let k := String.length m in
         substring 0 (k - f) m ++ "." ++ substring (k - f) f m
  end.

(** The integer [n] for which [n / 10^f] is closest to [m * 2^e], the
    larger one on a tie. *)
Definition nearest_scaled (m : positive) (e : Z) (f : nat) : Z :=
  let p := 10 ^ Z.of_nat f in
  if 0 <=? e then Z.pos m * 2 ^ e * p
  else let d := 2 ^ (- e) in (2 * Z.pos m * p + d) / (2 * d).

(** Is [m * 2^e >= 10^21]? *)
Definition at_least_1e21 (m : positive) (e : Z) : bool :=
  if 0 <=? e then 10 ^ 21 <=? Z.pos m * 2 ^ e
  else 10 ^ 21 * 2 ^ (- e) <=? Z.pos m.

Definition toFixed (x : float) (f : nat) : string :=
  match Prim2SF x with
  | S754_nan | S754_infinity _ => Number_toString x
  | S754_zero _ => fixed_digits 0 f
  | S754_finite neg m e =>
      (if neg then "-" else "") ++
      (if at_least_1e21 m e then Number_toString (PrimFloat.abs x)
       else fixed_digits (nearest_scaled m e f) f)
  end.
End ToFixed.

(** *** Date *)

Definition msPerDay : Z := 1000 * 60 * 60 * 24.

(** The largest time value of a valid [Date]. *)
Definition maxTimeValue : Z := 8640000000000000.

(** [TimeClip]: a time value out of range makes an invalid [Date] ([None]). *)
Definition timeClip (t : Z) : option Z :=
  if Z.abs t <=? maxTimeValue then Some t else None.

(** Year, month (1..12) and day of month of the day numbered [z] from the
    epoch, in the proleptic Gregorian calendar. *)
Definition civil_from_days (z : Z) : Z * Z * Z :=
  let z := z + 719468 in
  let era := z / 146097 in
  let doe := z - era * 146097 in
  let yoe := (doe - doe / 1460 + doe / 36524 - doe / 146096) / 365 in
  let y := yoe + era * 400 in
  let doy := doe - (365 * yoe + yoe / 4 - yoe / 100) in
  let mp := (5 * doy + 2) / 153 in
  let d := doy - (153 * mp + 2) / 5 + 1 in
  let m := if mp <? 10 then mp + 3 else mp - 9 in
  (if m <=? 2 then y + 1 else y, m, d).

Definition getFullYear (t : Z) : Z := fst (fst (civil_from_days (t / msPerDay))).
(** [getMonth] counts from 0. *)
Definition getMonth (t : Z) : Z := snd (fst (civil_from_days (t / msPerDay))) - 1.
Definition getDate (t : Z) : Z := snd (civil_from_days (t / msPerDay)).

(** [d.setDate(d.getDate() + delta)]: the same time of day [delta] days
    later, or an invalid date. *)
Definition addDays (t : Z) (delta : Z) : option Z :=
  timeClip (t + delta * msPerDay).

End JS.

(* ====================================================================== *)
(** ** Data model *)

(** *** Payment processor objects (the fields the resolver reads) *)

(** A property that the processor returns expanded, as a bare id, or not at
    all. *)
Inductive Expandable (A : Type) : Type :=
| NotPresent
| IdOnly (id : string)
| Expanded (a : A).

Arguments NotPresent {A}.
Arguments IdOnly {A} id.
Arguments Expanded {A} a.

Record BalanceTransaction : Type := {
  bt_amount : float;
  bt_fee : float;
  bt_net : float
}.

Record Charge : Type := {
  charge_id : string;
  charge_amount : float;
  charge_currency : string;
  charge_balance_transaction : Expandable BalanceTransaction
}.

Record PaymentIntent : Type := {
  pi_latest_charge : Expandable Charge
}.

(** *** Official rate service *)

Record Cotacao : Type := {
  cotacaoCompra : float;
  cotacaoVenda : float;
  dataHoraCotacao : string
}.

(** The parsed body of a reply of the rate service: [{ value?: [...] }]. *)
Record PTAXBody : Type := {
  value : option (list Cotacao)
}.

(** What [fetch] followed by [response.json()] yields: [fetch] rejects, or a
    response with its [ok] flag and its body ([None] when [json()] throws). *)
Inductive FetchResult (Body : Type) : Type :=
| FetchRejected
| Response (ok : bool) (statusText : string) (json : option Body).

Arguments FetchRejected {Body}.
Arguments Response {Body} ok statusText json.

(** *** Tax API entities ([shared/entities/fiscal]) *)

Record NFSeTomadorEndereco : Type := {
  logradouro : option string;
  numero : option string;
  complemento : option string;
  bairro : option string;
  codigoMunicipio : option string;
  uf : option string;
  cep : string
}.

(** The customer payload.  The builder fills the required properties of the
    declared type with whatever the profile holds ([cpfCnpj!], [address!]),
    so they are optional here, as they are at run time. *)
Record NFSeTomador : Type := {
  tomador_cpfCnpj : option string;
  nomeRazaoSocial : string;
  tomador_email : string;
  endereco : option NFSeTomadorEndereco;
  pais : option string;
  tomador_nif : option string;
  enderecoExterior : option string
}.

Record NFSeServico : Type := {
  valorServicos : float;
  itemListaServico : string;
  codigoTributacaoMunicipio : string;
  discriminacao : string;
  codigoCnae : string
}.

Record NFSeImpostos : Type := {
  issRetido : bool;
  valorIss : option float;
  aliquotaIss : option float;
  valorPis : option float;
  valorCofins : option float;
  valorCsrf : option float;
  valorInss : option float;
  valorIr : option float
}.

Record CreateNFSeRequest : Type := {
  tomador : NFSeTomador;
  servico : NFSeServico;
  impostos : option NFSeImpostos;
  observacoes : option string;
  referenciaExterna : string
}.

Record CreateNFSeResponse : Type := {
  reference : string;
  resp_status : string;
  resp_nfseNumber : option string;
  verificationCode : option string;
  resp_pdfUrl : option string;
  resp_xmlUrl : option string
}.

Record FiscalNacionalConfig : Type := {
  cnpj : string;
  inscricaoMunicipal : string;
  cfg_codigoMunicipio : string;
  cfg_itemListaServico : string;
  cfg_codigoTributacaoMunicipio : string;
  cfg_codigoCnae : string;
  cfg_aliquotaIss : float
}.

(** The body of a 2xx reply of the tax API, with the properties the client
    reads and the types it casts them to. *)
Record InvoiceBody : Type := {
  referencia : string;
  body_status : string;
  numero_nfse : option string;
  codigo_verificacao : option string;
  url_pdf : option string;
  url_xml : option string
}.

(** What [fetch] on the tax API followed by [response.json()] yields:
    [fetch] rejects; a non-2xx response with its status text and its body
    [{ message? }]; or a 2xx response with its body.  A body is [None] when
    [response.json()] throws. *)
Inductive TaxApiReply : Type :=
| TaxApiUnreachable
| TaxApiNon2xx (statusText : string) (body : option (option string))
| TaxApi2xx (body : option InvoiceBody).

(** *** Tables ([db/schema/fiscal.ts]) *)

Record TaxInfo : Type := {
  ti_id : Z;
  ti_userId : Z;
  ti_country : string;
  ti_isBrazilian : bool;
  ti_cpfCnpj : option string;
  ti_nif : option string;
  ti_nifExemptionCode : option string;
  ti_fullName : string;
  ti_address : option string;
  ti_number : option string;
  ti_complement : option string;
  ti_neighborhood : option string;
  ti_city : option string;
  ti_cityCode : option string;
  ti_state : option string;
  ti_postalCode : option string;
  ti_inscricaoMunicipal : option string;
  ti_createdAt : Z;
  ti_updatedAt : Z
}.

Record Nfse : Type := {
  id : Z;
  userId : Z;
  taxInfoId : Z;
  fiscalNacionalId : option string;
  fiscalNacionalReference : string;
  stripeSubscriptionId : option string;
  stripeInvoiceId : option string;
  stripePaymentIntentId : option string;
  stripeChargeId : option string;
  transactionType : string;
  nfseNumber : option string;
  status : string;
  serviceDescription : string;
  productName : option string;
  valueBrl : float;
  valueUsd : option float;
  originalAmount : option float;
  originalCurrency : option string;
  currencyCode : option string;
  exchangeRate : option float;
  issRate : float;
  issValue : float;
  customerName : string;
  customerEmail : string;
  customerCountry : string;
  customerDocument : option string;
  pdfUrl : option string;
  xmlUrl : option string;
  errorMessage : option string;
  errorDetails : option string;
  issuedAt : option Z;
  cancelledAt : option Z;
  cancellationReason : option string;
  createdAt : Z;
  updatedAt : Z
}.

Record Store : Type := {
  userTaxInfo : list TaxInfo;
  nfse : list Nfse;
  (** the last value drawn from the sequence behind [nfse.id] *)
  nfse_id_seq : Z
}.

(** *** Webhook payload ([webhookSchema]) *)

Record WebhookData : Type := {
  wh_event : string;
  wh_reference : string;
  wh_status : string;
  wh_nfse_number : option string;
  wh_pdf_url : option string;
  wh_xml_url : option string;
  wh_error_message : option string;
  wh_timestamp : string
}.

(** The statements the services send to the database. *)
Inductive DbStatement : Type :=
| SelectTaxInfo
| InsertNfse
| UpdateNfse.

(* ====================================================================== *)
(** ** Effects *)

(** What the currency service does that the outside can see. *)
Inductive CurrencyEvent : Type :=
| StripeChargesRetrieve (chargeId : string)
| StripePaymentIntentsRetrieve (paymentIntentId : string)
| FetchPTAX (url : string)
| ConsoleError (message : string)
| ConsoleWarn (message : string).

(** What the issuer and the reconciler do that the outside can see: what
    their currency service does, the requests to the tax API, and the
    reconciler's error log. *)
Inductive Event : Type :=
| ByCurrencyService (e : CurrencyEvent)
| TaxApiCreateNFSe (request : CreateNFSeRequest)
| WebhookConsoleError (message : string).

(** A computation over a state [S] that emits events [E]: its outcome, the
    state it leaves and the events it emitted, in order.  A computation that
    throws keeps the state and the events reached so far. *)
Definition Prog (E S A : Type) : Type := S -> Outcome A * S * list E.

Definition ret {E S A : Type} (a : A) : Prog E S A :=
  fun s => (Returned a, s, []).

Definition throw {E S A : Type} (message : string) : Prog E S A :=
  fun s => (Thrown message, s, []).

Definition bind {E S A B : Type} (m : Prog E S A) (k : A -> Prog E S B) : Prog E S B :=
  fun s =>
    match m s with
    | (Returned a, s1, l1) =>
        match k a s1 with
        | (r, s2, l2) => (r, s2, (l1 ++ l2)%list)
        end
    | (Thrown e, s1, l1) => (Thrown e, s1, l1)
    | (OutOfFuel, s1, l1) => (OutOfFuel, s1, l1)
    end.

(** [try { m } catch (error) { h error }]. *)
Definition try_catch {E S A : Type} (m : Prog E S A) (h : string -> Prog E S A)
  : Prog E S A :=
  fun s =>
    match m s with
    | (Thrown e, s1, l1) =>
        match h e s1 with
        | (r, s2, l2) => (r, s2, (l1 ++ l2)%list)
        end
    | other => other
    end.

Definition emit {E S : Type} (e : E) : Prog E S unit :=
  fun s => (Returned tt, s, [e]).

Definition get {E S : Type} : Prog E S S :=
  fun s => (Returned s, s, []).

Definition put {E S : Type} (s' : S) : Prog E S unit :=
  fun _ => (Returned tt, s', []).

(** Run a computation over one component of a larger state, its events
    seen as events of the caller. *)
Definition zoom {E F S T A : Type} (inj : E -> F) (proj : T -> S) (upd : S -> T -> T)
    (m : Prog E S A) : Prog F T A :=
  fun t =>
    match m (proj t) with
    | (r, s', l) => (r, upd s' t, map inj l)
    end.

Declare Scope prog_scope.
Delimit Scope prog_scope with prog.
Notation "x <- m ;; k" := (bind m (fun x => k))
  (at level 61, m at next level, right associativity) : prog_scope.
Notation "m ;; k" := (bind m (fun _ => k))
  (at level 61, right associativity) : prog_scope.

Definition outcome {E S A : Type} (r : Outcome A * S * list E) : Outcome A :=
  fst (fst r).
Definition final {E S A : Type} (r : Outcome A * S * list E) : S :=
  snd (fst r).
Definition events {E S A : Type} (r : Outcome A * S * list E) : list E :=
  snd r.

(* ====================================================================== *)
(** ** The environment of a call *)

(** Everything a call reads from outside the repository's code: the clock,
    the engine's number and date printing, the payment processor, the rate
    service, the tax API, the database driver's failures, and the
    cryptographic and parsing libraries of the webhook route. *)
Record Env : Type := {
  (** the time value of the [k]-th [new Date()] evaluated during the call *)
  clock : nat -> Z;
  Number_toString : float -> string;
  Date_toISOString : Z -> string;
  (** [stripe.charges.retrieve(id, {expand})]; [None] when it rejects *)
  stripe_charges_retrieve : string -> option Charge;
  (** [stripe.paymentIntents.retrieve(id, {expand})]; [None] when it rejects *)
  stripe_paymentIntents_retrieve : string -> option PaymentIntent;
  (** [fetch(url)] on the rate service, with [response.json()] *)
  fetch_ptax : string -> FetchResult PTAXBody;
  (** [fetch(baseUrl/nfse, POST body)] on the tax API, with [response.json()];
      the body is a field-by-field copy of the request and of the company
      configuration *)
  fetch_nfse : FiscalNacionalConfig -> CreateNFSeRequest -> TaxApiReply;
  (** the error with which the database rejects a statement, if it does *)
  db_error : DbStatement -> option string;
  (** the database's [now()], which fills the [defaultNow()] columns *)
  db_now : Z;
  (** [createHmac("sha256", key).update(body).digest("hex")] *)
  hmacSha256Hex : string -> string -> string;
  (** [webhookSchema.parse(JSON.parse(body))]; [None] when either throws *)
  parseWebhook : string -> option WebhookData
}.

(** [new Date()]: reads the clock; the state counts the readings. *)
Definition newDate {E : Type} (env : Env) : Prog E nat Z :=
  fun k => (Returned (clock env k), S k, []).

(* ====================================================================== *)
(** ** Currency conversion service ([currency-conversion.service.ts]) *)

Module Currency.
Import JS.
Local Open Scope prog_scope.

Record CurrencyInfo : Type := {
  code : string;
  bacenCode : string;
  name : string;
  symbol : string
}.

Definition CURRENCIES : list CurrencyInfo := [
  {| code := "USD"; bacenCode := "220"; name := "US Dollar"; symbol := "$" |};
  {| code := "EUR"; bacenCode := "978"; name := "Euro"; symbol := "€" |};
  {| code := "GBP"; bacenCode := "540"; name := "British Pound"; symbol := "£" |};
  {| code := "CAD"; bacenCode := "165"; name := "Canadian Dollar"; symbol := "C$" |};
  {| code := "AUD"; bacenCode := "150"; name := "Australian Dollar"; symbol := "A$" |};
  {| code := "JPY"; bacenCode := "470"; name := "Japanese Yen"; symbol := "¥" |};
  {| code := "CHF"; bacenCode := "510"; name := "Swiss Franc"; symbol := "CHF" |};
  {| code := "BRL"; bacenCode := "986"; name := "Brazilian Real"; symbol := "R$" |}
].

(** An object used as a map from strings: its own properties, in order.  The
    services index these objects with upper-cased keys only, which no
    inherited property name matches. *)
Fixpoint lookup {A : Type} (key : string) (m : list (string * A)) : option A :=
  match m with
  | [] => None
  | (k, v) :: m' => if (k =? key)%string then Some v else lookup key m'
  end.

Definition ISO_TO_BACEN : list (string * string) :=
  map (fun c => (code c, bacenCode c)) CURRENCIES.

Definition FALLBACK_RATES : list (string * float) := [
  ("USD", 5.5%float);
  ("EUR", 6.0%float);
  ("GBP", 7.0%float);
  ("CAD", 4.0%float);
  ("AUD", 3.5%float);
  ("JPY", 0.037%float);
  ("CHF", 6.2%float)
].

Inductive Source : Type :=
| stripe_balance
| ptax
| fallback.

(** The string each [source] value is in the code. *)
Definition source_code (s : Source) : string :=
  match s with
  | stripe_balance => "stripe_balance"
  | ptax => "ptax"
  | fallback => "fallback"
  end.

Record CurrencyConversionResult : Type := {
  amountBrl : float;
  originalAmount : float;
  originalCurrency : string;
  exchangeRate : float;
  source : Source;
  rateDate : string;
  auditDescription : string;
  stripeFeesBrl : option float;
  netAmountBrl : option float
}.

Record StripeBalanceInfo : Type := {
  grossAmountBrl : float;
  feesBrl : float;
  sbi_netAmountBrl : float;
  sbi_exchangeRate : float;
  sbi_originalAmount : float;
  sbi_originalCurrency : string
}.

Record PTAXRate : Type := {
  buyRate : float;
  sellRate : float;
  date : string
}.

Record ConvertParams : Type := {
  amount : float;
  currency : string;
  chargeId : option string;
  paymentIntentId : option string
}.

Definition ptaxUrl (currency formattedDate : string) : string :=
  "https://olinda.bcb.gov.br/olinda/servico/PTAX/versao/v1/odata/CotacaoMoedaDia(moeda=@moeda,dataCotacao=@data)?@moeda='"
  ++ currency ++ "'&@data='" ++ formattedDate ++ "'&$format=json".

Definition formatDateForBACEN (date : Z) : string :=
  let month := padStart0 2 (string_of_Z (getMonth date + 1)) in
  let day := padStart0 2 (string_of_Z (getDate date)) in
  let year := getFullYear date in
  month ++ "-" ++ day ++ "-" ++ string_of_Z year.

(** [(targetDate.getTime() - previousDay.getTime()) / (1000 * 60 * 60 * 24) <= 7].
    Both time values are integers below 2^53 in magnitude, so the quotient
    compares with 7 as the exact rational does. *)
Definition within7Days (targetDate previousDay : Z) : bool :=
  Qle_bool (inject_Z (targetDate - previousDay) / inject_Z msPerDay) 7.

Definition sourceLabels (s : Source) : string :=
  match s with
  | stripe_balance => "Taxa de Conversão Stripe"
  | ptax => "Taxa PTAX (Banco Central)"
  | fallback => "Taxa de Conversão Estimada"
  end.

Definition getBACENCode (isoCurrency : string) : option string :=
  lookup (toUpperCase isoCurrency) ISO_TO_BACEN.

Section Service.
Variable env : Env.

Definition toFixed : float -> nat -> string := JS.toFixed (Number_toString env).

Definition getStripeBalanceInfo (chargeId : string)
  : Prog CurrencyEvent nat (option StripeBalanceInfo) :=
  try_catch
    (emit (StripeChargesRetrieve chargeId) ;;
     charge <- match stripe_charges_retrieve env chargeId with
               | Some c => ret c
               | None => throw "stripe.charges.retrieve"
               end ;;
     match charge_balance_transaction charge with
     | NotPresent | IdOnly _ => ret None
     | Expanded balanceTransaction =>
         let grossAmount := bt_amount balanceTransaction in
         let feeAmount := bt_fee balanceTransaction in
         let netAmount := bt_net balanceTransaction in
         let originalCurrency := toUpperCase (charge_currency charge) in
         let exchangeRate :=
           if negb (originalCurrency =? "BRL")%string
           then (grossAmount / charge_amount charge)%float
           else 1%float in
         ret (Some {| grossAmountBrl := (grossAmount / 100)%float;
                      feesBrl := (feeAmount / 100)%float;
                      sbi_netAmountBrl := (netAmount / 100)%float;
                      sbi_exchangeRate := exchangeRate;
                      sbi_originalAmount := charge_amount charge;
                      sbi_originalCurrency := originalCurrency |})
     end)
    (fun error =>
       emit (ConsoleError ("Failed to get balance for charge " ++ chargeId ++ ":")) ;;
       ret None).

Definition getStripeBalanceInfoFromPaymentIntent (paymentIntentId : string)
  : Prog CurrencyEvent nat (option StripeBalanceInfo) :=
  try_catch
    (emit (StripePaymentIntentsRetrieve paymentIntentId) ;;
     paymentIntent <- match stripe_paymentIntents_retrieve env paymentIntentId with
                      | Some p => ret p
                      | None => throw "stripe.paymentIntents.retrieve"
                      end ;;
     match pi_latest_charge paymentIntent with
     | NotPresent | IdOnly _ => ret None
     | Expanded charge => getStripeBalanceInfo (charge_id charge)
     end)
    (fun error =>
       emit (ConsoleError ("Failed to get balance from payment intent "
                           ++ paymentIntentId ++ ":")) ;;
       ret None).

(** [getPTAXRate(currency, date?)].  The recursion on the previous day is
    not structural; [fuel] bounds the number of nested calls the model
    follows. *)
Fixpoint getPTAXRate (fuel : nat) (currency : string) (date : option Z)
  {struct fuel} : Prog CurrencyEvent nat (option PTAXRate) :=
  match fuel with
  | O => fun s => (OutOfFuel, s, [])
  | S fuel' =>
      try_catch
        (targetDate <- match date with
                       | Some d => ret d
                       | None => newDate env
                       end ;;
         let formattedDate := formatDateForBACEN targetDate in
         let url := ptaxUrl currency formattedDate in
         emit (FetchPTAX url) ;;
         match fetch_ptax env url with
         | FetchRejected => throw "fetch"
         | Response ok _ json =>
             if negb ok then ret None
             else
               data <- match json with
                       | Some d => ret d
                       | None => throw "response.json"
                       end ;;
               match value data with
               | None | Some [] =>
                   (* Try previous day *)
                   match addDays targetDate (-1) with
                   | Some previousDay =>
                       if within7Days targetDate previousDay
                       then getPTAXRate fuel' currency (Some previousDay)
                       else ret None
                   | None => ret None  (* an invalid date: NaN <= 7 is false *)
                   end
               | Some (q :: qs) =>
                   let latestRate := last qs q in
                   ret (Some {| buyRate := cotacaoCompra latestRate;
                                sellRate := cotacaoVenda latestRate;
                                date := dataHoraCotacao latestRate |})
               end
         end)
        (fun error =>
           emit (ConsoleError ("Failed to get PTAX rate for " ++ currency ++ ":")) ;;
           ret None)
  end.

Definition getFallbackRate (currency : string) : float :=
  match lookup (toUpperCase currency) FALLBACK_RATES with
  | Some r => if truthy_num r then r else 5.5%float
  | None => 5.5%float
  end.

Definition buildAuditDescription (originalAmount : float) (currency : string)
    (rate : float) (source : Source) (fees : option float) : string :=
  let currencyObj := find (fun c => (code c =? currency)%string) CURRENCIES in
  let symbol := match currencyObj with
                | Some c => if (symbol c =? "")%string then currency else symbol c
                | None => currency
                end in
  let description :=
    "Valor original: " ++ symbol ++ toFixed originalAmount 2 ++ " - "
    ++ sourceLabels source ++ ": R$ " ++ toFixed rate 4 in
  match fees with
  | Some f =>
      if truthy_num f && (0 <? f)%float
      then description ++ " - Taxas operacionais: R$ " ++ toFixed f 2
      else description
  | None => description
  end.

Definition convertToBRL (fuel : nat) (params : ConvertParams)
  : Prog CurrencyEvent nat CurrencyConversionResult :=
  let amount := amount params in
  let currencyUpper := toUpperCase (currency params) in
  if (currencyUpper =? "BRL")%string then
    now <- newDate env ;;
    ret {| amountBrl := amount;
           originalAmount := amount;
           originalCurrency := "BRL";
           exchangeRate := 1%float;
           source := stripe_balance;
           rateDate := Date_toISOString env now;
           auditDescription := "Pagamento em BRL - sem conversão necessária";
           stripeFeesBrl := None;
           netAmountBrl := None |}
  else
    now <- newDate env ;;
    let today := before_T (Date_toISOString env now) in
    (* 1. Try Stripe Balance *)
    byCharge <- match chargeId params with
                | Some c => if truthy_str (Some c) then getStripeBalanceInfo c else ret None
                | None => ret None
                end ;;
    match byCharge with
    | Some stripeInfo => ret {| amountBrl := grossAmountBrl stripeInfo;
               originalAmount := amount;
               originalCurrency := currencyUpper;
               exchangeRate := sbi_exchangeRate stripeInfo;
               source := stripe_balance;
               stripeFeesBrl := Some (feesBrl stripeInfo);
               netAmountBrl := Some (sbi_netAmountBrl stripeInfo);
               rateDate := today;
               auditDescription :=
                 buildAuditDescription amount currencyUpper
                   (sbi_exchangeRate stripeInfo) stripe_balance
                   (Some (feesBrl stripeInfo)) |}
    | None =>
        byIntent <- match paymentIntentId params with
                    | Some p => if truthy_str (Some p)
                                then getStripeBalanceInfoFromPaymentIntent p
                                else ret None
                    | None => ret None
                    end ;;
        match byIntent with
        | Some stripeInfo => ret {| amountBrl := grossAmountBrl stripeInfo;
               originalAmount := amount;
               originalCurrency := currencyUpper;
               exchangeRate := sbi_exchangeRate stripeInfo;
               source := stripe_balance;
               stripeFeesBrl := Some (feesBrl stripeInfo);
               netAmountBrl := Some (sbi_netAmountBrl stripeInfo);
               rateDate := today;
               auditDescription :=
                 buildAuditDescription amount currencyUpper
                   (sbi_exchangeRate stripeInfo) stripe_balance
                   (Some (feesBrl stripeInfo)) |}
        | None =>
            (* 2. Try PTAX *)
            ptaxRate <- getPTAXRate fuel currencyUpper None ;;
            match ptaxRate with
            | Some rate =>
                ret {| amountBrl := (amount * sellRate rate)%float;
                       originalAmount := amount;
                       originalCurrency := currencyUpper;
                       exchangeRate := sellRate rate;
                       source := ptax;
                       rateDate := date rate;
                       auditDescription :=
                         buildAuditDescription amount currencyUpper (sellRate rate)
                           ptax None;
                       stripeFeesBrl := None;
                       netAmountBrl := None |}
            | None =>
                (* 3. Fallback *)
                let fallbackRate := getFallbackRate currencyUpper in
                emit (ConsoleWarn ("Using fallback rate for " ++ currencyUpper ++ ": "
                                   ++ Number_toString env fallbackRate)) ;;
                ret {| amountBrl := (amount * fallbackRate)%float;
                       originalAmount := amount;
                       originalCurrency := currencyUpper;
                       exchangeRate := fallbackRate;
                       source := fallback;
                       rateDate := today;
                       auditDescription :=
                         buildAuditDescription amount currencyUpper fallbackRate
                           fallback None;
                       stripeFeesBrl := None;
                       netAmountBrl := None |}
            end
        end
    end.
End Service.

End Currency.

(* ====================================================================== *)
(** ** State of the issuer and of the reconciler *)

(** The number of clock readings so far and the database. *)
Record St : Type := {
  ticks : nat;
  db : Store
}.

Definition with_ticks (k : nat) (s : St) : St := {| ticks := k; db := db s |}.
Definition with_db (d : Store) (s : St) : St := {| ticks := ticks s; db := d |}.

(** A computation over the clock alone, run in the larger state. *)
Definition on_clock {E A : Type} (inj : E -> Event) (m : Prog E nat A)
  : Prog Event St A :=
  zoom inj ticks with_ticks m.

(** Send a statement: the database may reject it. *)
Definition db_statement (env : Env) (stmt : DbStatement) : Prog Event St unit :=
  match db_error env stmt with
  | Some e => throw e
  | None => ret tt
  end.

(* ====================================================================== *)
(** ** Tax API client and invoice issuer
       ([fiscal-nacional.ts], [nfse.service.ts]) *)

Module Issuer.
Import JS.
Local Open Scope prog_scope.

Record SubscriptionParams : Type := {
  sub_userId : Z;
  sub_stripeSubscriptionId : string;
  sub_stripeInvoiceId : string;
  sub_stripeChargeId : option string;
  sub_stripePaymentIntentId : option string;
  sub_amount : float;
  sub_currency : string;
  sub_planName : string;
  sub_userEmail : string
}.

Record CreditPurchaseParams : Type := {
  cp_userId : Z;
  cp_stripePaymentIntentId : string;
  cp_stripeChargeId : option string;
  cp_amount : float;
  cp_currency : string;
  cp_creditAmount : float;
  cp_userEmail : string
}.

(** The columns the issuer names in an insert into [nfse]; the credit
    purchase path leaves the two subscription columns out. *)
Record NfseValues : Type := {
  v_userId : Z;
  v_taxInfoId : Z;
  v_fiscalNacionalReference : string;
  v_stripeSubscriptionId : option string;
  v_stripeInvoiceId : option string;
  v_stripeChargeId : option string;
  v_stripePaymentIntentId : option string;
  v_transactionType : string;
  v_status : string;
  v_productName : string;
  v_serviceDescription : string;
  v_valueBrl : float;
  v_valueUsd : option float;
  v_originalAmount : float;
  v_originalCurrency : string;
  v_exchangeRate : float;
  v_customerName : string;
  v_customerEmail : string;
  v_customerCountry : string;
  v_customerDocument : option string;
  v_nfseNumber : option string;
  v_pdfUrl : option string;
  v_xmlUrl : option string
}.

Definition newline : string := String (ascii_of_nat 10) EmptyString.

Section Service.
Variable env : Env.
Variable config : FiscalNacionalConfig.
(** [this.currencyService.convertToBRL]: the service has the clock and its
    own collaborators, and no handle on the database. *)
Variable currencyService_convertToBRL :
  Currency.ConvertParams -> Prog CurrencyEvent nat Currency.CurrencyConversionResult.

Definition toFixed : float -> nat -> string := JS.toFixed (Number_toString env).

(** [FiscalNacionalClient.createNFSe]. *)
Definition createNFSe (request : CreateNFSeRequest) : Prog Event St CreateNFSeResponse :=
  emit (TaxApiCreateNFSe request) ;;
  match fetch_nfse env config request with
  | TaxApiUnreachable => throw "fetch"
  | TaxApiNon2xx statusText body =>
      error <- match body with
               | Some e => ret e
               | None => throw "response.json"
               end ;;
      throw ("Failed to create NFS-e: "
             ++ (if truthy_str error
                 then match error with Some m => m | None => statusText end
                 else statusText))
  | TaxApi2xx body =>
      data <- match body with
              | Some d => ret d
              | None => throw "response.json"
              end ;;
      ret {| reference := referencia data;
             resp_status := body_status data;
             resp_nfseNumber := numero_nfse data;
             verificationCode := codigo_verificacao data;
             resp_pdfUrl := url_pdf data;
             resp_xmlUrl := url_xml data |}
  end.

(** [_buildTomadorFromTaxInfo].  Reading a property of [null] throws a
    [TypeError]. *)
Definition _buildTomadorFromTaxInfo (taxInfo : TaxInfo) (email : string)
  : Prog Event St NFSeTomador :=
  if ti_isBrazilian taxInfo then
    (* Brazilian customer *)
    nome <- (if truthy_str (Some (ti_fullName taxInfo))
             then ret (ti_fullName taxInfo)
             else match ti_cpfCnpj taxInfo with
                  | Some doc =>
                      ret ((if (String.length doc <=? 11)%nat then "CPF" else "CNPJ")
                           ++ " " ++ doc)
                  | None => throw "TypeError: taxInfo.cpfCnpj is null"
                  end) ;;
    cepDigits <- match ti_postalCode taxInfo with
                 | Some p => ret (digits_only p)
                 | None => throw "TypeError: taxInfo.postalCode is null"
                 end ;;
    ret {| tomador_cpfCnpj := ti_cpfCnpj taxInfo;
           nomeRazaoSocial := nome;
           tomador_email := email;
           endereco := Some {| logradouro := ti_address taxInfo;
                               numero := ti_number taxInfo;
                               complemento := or_null (ti_complement taxInfo);
                               bairro := ti_neighborhood taxInfo;
                               codigoMunicipio := ti_cityCode taxInfo;
                               uf := ti_state taxInfo;
                               cep := cepDigits |};
           pais := None;
           tomador_nif := None;
           enderecoExterior := None |}
  else
    (* International customer *)
    let internationalAddress :=
      or_null (Some (join_present ", " [ti_address taxInfo; ti_city taxInfo;
                                        ti_postalCode taxInfo])) in
    ret {| tomador_cpfCnpj := None;
           nomeRazaoSocial := ti_fullName taxInfo;
           tomador_email := email;
           endereco := None;
           pais := Some (ti_country taxInfo);
           tomador_nif := or_null (ti_nif taxInfo);
           enderecoExterior := internationalAddress |}.

Definition _buildServiceDescription (productName : string) (amount : float)
    (currency : string) (exchangeRate : float) (source : string) : string :=
  String.concat newline [
    "Serviço: " ++ productName;
    "Valor Original: " ++ toFixed amount 2 ++ " " ++ currency;
    "Taxa de Câmbio: " ++ toFixed exchangeRate 4;
    "Fonte: " ++ source
  ].

(** [db.select().from(userTaxInfo).where(eq(userTaxInfo.userId, userId)).limit(1)],
    destructured to its first row. *)
Definition selectTaxInfo (userId : Z) : Prog Event St (option TaxInfo) :=
  db_statement env SelectTaxInfo ;;
  s <- get ;;
  ret (find (fun t => ti_userId t =? userId) (userTaxInfo (db s))).

(** [db.insert(nfse).values(row).returning()], destructured to its first
    row: the database draws the id, fills the columns the insert does not
    name with their defaults ([null] where none is declared) and appends
    the row. *)
Definition insertNfse (values : NfseValues) : Prog Event St (option Nfse) :=
  db_statement env InsertNfse ;;
  s <- get ;;
  let newId := nfse_id_seq (db s) + 1 in
  let created :=
    {| id := newId;
       userId := v_userId values;
       taxInfoId := v_taxInfoId values;
       fiscalNacionalId := None;
       fiscalNacionalReference := v_fiscalNacionalReference values;
       stripeSubscriptionId := v_stripeSubscriptionId values;
       stripeInvoiceId := v_stripeInvoiceId values;
       stripePaymentIntentId := v_stripePaymentIntentId values;
       stripeChargeId := v_stripeChargeId values;
       transactionType := v_transactionType values;
       nfseNumber := v_nfseNumber values;
       status := v_status values;
       serviceDescription := v_serviceDescription values;
       productName := Some (v_productName values);
       valueBrl := v_valueBrl values;
       valueUsd := v_valueUsd values;
       originalAmount := Some (v_originalAmount values);
       originalCurrency := Some (v_originalCurrency values);
       currencyCode := None;
       exchangeRate := Some (v_exchangeRate values);
       issRate := 0.02%float;
       issValue := 0.0%float;
       customerName := v_customerName values;
       customerEmail := v_customerEmail values;
       customerCountry := v_customerCountry values;
       customerDocument := v_customerDocument values;
       pdfUrl := v_pdfUrl values;
       xmlUrl := v_xmlUrl values;
       errorMessage := None;
       errorDetails := None;
       issuedAt := None;
       cancelledAt := None;
       cancellationReason := None;
       createdAt := db_now env;
       updatedAt := db_now env |} in
  put (with_db {| userTaxInfo := userTaxInfo (db s);
                  nfse := (nfse (db s) ++ [created])%list;
                  nfse_id_seq := newId |} s) ;;
  ret (Some created).

Definition createNFSeForSubscription (params : SubscriptionParams) : Prog Event St Z :=
  (* Get user's tax info *)
  found <- selectTaxInfo (sub_userId params) ;;
  match found with
  | None => throw "User tax information not found"
  | Some taxInfo =>
      (* Convert to BRL *)
      conversion <- on_clock ByCurrencyService (currencyService_convertToBRL
        {| Currency.amount := sub_amount params;
           Currency.currency := sub_currency params;
           Currency.chargeId := sub_stripeChargeId params;
           Currency.paymentIntentId := sub_stripePaymentIntentId params |}) ;;
      (* Generate service description *)
      let serviceDescription :=
        _buildServiceDescription (sub_planName params) (sub_amount params)
          (sub_currency params) (Currency.exchangeRate conversion)
          (Currency.source_code (Currency.source conversion)) in
      (* Create NFS-e via Fiscal Nacional API *)
      let externalReference :=
        "user_" ++ string_of_Z (sub_userId params) ++ "_sub_"
        ++ sub_stripeSubscriptionId params in
      tomador <- _buildTomadorFromTaxInfo taxInfo (sub_userEmail params) ;;
      fiscalResponse <- createNFSe
        {| tomador := tomador;
           servico := {| valorServicos := Currency.amountBrl conversion;
                         itemListaServico := cfg_itemListaServico config;
                         codigoTributacaoMunicipio := cfg_codigoTributacaoMunicipio config;
                         discriminacao := serviceDescription;
                         codigoCnae := cfg_codigoCnae config |};
           impostos := Some {| issRetido := false;
                               valorIss := None;
                               aliquotaIss := Some (cfg_aliquotaIss config);
                               valorPis := None;
                               valorCofins := None;
                               valorCsrf := None;
                               valorInss := None;
                               valorIr := None |};
           observacoes := None;
           referenciaExterna := externalReference |} ;;
      (* Save to database *)
      created <- insertNfse
        {| v_userId := sub_userId params;
           v_taxInfoId := ti_id taxInfo;
           v_fiscalNacionalReference := reference fiscalResponse;
           v_stripeSubscriptionId := Some (sub_stripeSubscriptionId params);
           v_stripeInvoiceId := Some (sub_stripeInvoiceId params);
           v_stripeChargeId := or_null (sub_stripeChargeId params);
           v_stripePaymentIntentId := or_null (sub_stripePaymentIntentId params);
           v_transactionType := "subscription";
           v_status := resp_status fiscalResponse;
           v_productName := sub_planName params;
           v_serviceDescription := serviceDescription;
           v_valueBrl := Currency.amountBrl conversion;
           v_valueUsd := if (sub_currency params =? "USD")%string
                         then Some (sub_amount params) else None;
           v_originalAmount := sub_amount params;
           v_originalCurrency := sub_currency params;
           v_exchangeRate := Currency.exchangeRate conversion;
           v_customerName := ti_fullName taxInfo;
           v_customerEmail := sub_userEmail params;
           v_customerCountry := ti_country taxInfo;
           v_customerDocument := or_null (or_str (ti_cpfCnpj taxInfo) (ti_nif taxInfo));
           v_nfseNumber := or_null (resp_nfseNumber fiscalResponse);
           v_pdfUrl := or_null (resp_pdfUrl fiscalResponse);
           v_xmlUrl := or_null (resp_xmlUrl fiscalResponse) |} ;;
      match created with
      | None => throw "Failed to create NFS-e record"
      | Some row => ret (id row)
      end
  end.

Definition createNFSeForCreditPurchase (params : CreditPurchaseParams) : Prog Event St Z :=
  (* Get user's tax info *)
  found <- selectTaxInfo (cp_userId params) ;;
  match found with
  | None => throw "User tax information not found"
  | Some taxInfo =>
      (* Convert to BRL *)
      conversion <- on_clock ByCurrencyService (currencyService_convertToBRL
        {| Currency.amount := cp_amount params;
           Currency.currency := cp_currency params;
           Currency.chargeId := cp_stripeChargeId params;
           Currency.paymentIntentId := Some (cp_stripePaymentIntentId params) |}) ;;
      (* Generate service description *)
      let productName := Number_toString env (cp_creditAmount params) ++ " Credits" in
      let serviceDescription :=
        _buildServiceDescription productName (cp_amount params)
          (cp_currency params) (Currency.exchangeRate conversion)
          (Currency.source_code (Currency.source conversion)) in
      (* Create NFS-e via Fiscal Nacional API *)
      let externalReference :=
        "user_" ++ string_of_Z (cp_userId params) ++ "_credits_"
        ++ cp_stripePaymentIntentId params in
      tomador <- _buildTomadorFromTaxInfo taxInfo (cp_userEmail params) ;;
      fiscalResponse <- createNFSe
        {| tomador := tomador;
           servico := {| valorServicos := Currency.amountBrl conversion;
                         itemListaServico := cfg_itemListaServico config;
                         codigoTributacaoMunicipio := cfg_codigoTributacaoMunicipio config;
                         discriminacao := serviceDescription;
                         codigoCnae := cfg_codigoCnae config |};
           impostos := Some {| issRetido := false;
                               valorIss := None;
                               aliquotaIss := Some (cfg_aliquotaIss config);
                               valorPis := None;
                               valorCofins := None;
                               valorCsrf := None;
                               valorInss := None;
                               valorIr := None |};
           observacoes := None;
           referenciaExterna := externalReference |} ;;
      (* Save to database *)
      created <- insertNfse
        {| v_userId := cp_userId params;
           v_taxInfoId := ti_id taxInfo;
           v_fiscalNacionalReference := reference fiscalResponse;
           v_stripeSubscriptionId := None;
           v_stripeInvoiceId := None;
           v_stripePaymentIntentId := Some (cp_stripePaymentIntentId params);
           v_stripeChargeId := or_null (cp_stripeChargeId params);
           v_transactionType := "credit_purchase";
           v_status := resp_status fiscalResponse;
           v_productName := productName;
           v_serviceDescription := serviceDescription;
           v_valueBrl := Currency.amountBrl conversion;
           v_valueUsd := if (cp_currency params =? "USD")%string
                         then Some (cp_amount params) else None;
           v_originalAmount := cp_amount params;
           v_originalCurrency := cp_currency params;
           v_exchangeRate := Currency.exchangeRate conversion;
           v_customerName := ti_fullName taxInfo;
           v_customerEmail := cp_userEmail params;
           v_customerCountry := ti_country taxInfo;
           v_customerDocument := or_null (or_str (ti_cpfCnpj taxInfo) (ti_nif taxInfo));
           v_nfseNumber := or_null (resp_nfseNumber fiscalResponse);
           v_pdfUrl := or_null (resp_pdfUrl fiscalResponse);
           v_xmlUrl := or_null (resp_xmlUrl fiscalResponse) |} ;;
      match created with
      | None => throw "Failed to create NFS-e record"
      | Some row => ret (id row)
      end
  end.
End Service.

End Issuer.

(* ====================================================================== *)
(** ** Webhook reconciler
       ([POST /webhook] in [routes/fiscal/index.ts], and
        [NFSeService.updateNFSeFromWebhook] in [nfse.service.ts]) *)

Module Reconciler.
Import JS.
Local Open Scope prog_scope.

(** The object passed to [set]: the columns it has a key for. *)
Record UpdateData : Type := {
  u_status : option string;
  u_updatedAt : option Z;
  u_issuedAt : option Z;
  u_nfseNumber : option string;
  u_pdfUrl : option string;
  u_xmlUrl : option string;
  u_errorMessage : option string;
  u_cancelledAt : option Z
}.

Definition set_issuedAt (t : Z) (u : UpdateData) : UpdateData :=
  {| u_status := u_status u; u_updatedAt := u_updatedAt u;
     u_issuedAt := Some t;
     u_nfseNumber := u_nfseNumber u; u_pdfUrl := u_pdfUrl u; u_xmlUrl := u_xmlUrl u;
     u_errorMessage := u_errorMessage u; u_cancelledAt := u_cancelledAt u |}.

Definition set_nfseNumber (v : string) (u : UpdateData) : UpdateData :=
  {| u_status := u_status u; u_updatedAt := u_updatedAt u; u_issuedAt := u_issuedAt u;
     u_nfseNumber := Some v;
     u_pdfUrl := u_pdfUrl u; u_xmlUrl := u_xmlUrl u;
     u_errorMessage := u_errorMessage u; u_cancelledAt := u_cancelledAt u |}.

Definition set_pdfUrl (v : string) (u : UpdateData) : UpdateData :=
  {| u_status := u_status u; u_updatedAt := u_updatedAt u; u_issuedAt := u_issuedAt u;
     u_nfseNumber := u_nfseNumber u;
     u_pdfUrl := Some v;
     u_xmlUrl := u_xmlUrl u;
     u_errorMessage := u_errorMessage u; u_cancelledAt := u_cancelledAt u |}.

Definition set_xmlUrl (v : string) (u : UpdateData) : UpdateData :=
  {| u_status := u_status u; u_updatedAt := u_updatedAt u; u_issuedAt := u_issuedAt u;
     u_nfseNumber := u_nfseNumber u; u_pdfUrl := u_pdfUrl u;
     u_xmlUrl := Some v;
     u_errorMessage := u_errorMessage u; u_cancelledAt := u_cancelledAt u |}.

Definition set_errorMessage (v : string) (u : UpdateData) : UpdateData :=
  {| u_status := u_status u; u_updatedAt := u_updatedAt u; u_issuedAt := u_issuedAt u;
     u_nfseNumber := u_nfseNumber u; u_pdfUrl := u_pdfUrl u; u_xmlUrl := u_xmlUrl u;
     u_errorMessage := Some v;
     u_cancelledAt := u_cancelledAt u |}.

Definition set_cancelledAt (t : Z) (u : UpdateData) : UpdateData :=
  {| u_status := u_status u; u_updatedAt := u_updatedAt u; u_issuedAt := u_issuedAt u;
     u_nfseNumber := u_nfseNumber u; u_pdfUrl := u_pdfUrl u; u_xmlUrl := u_xmlUrl u;
     u_errorMessage := u_errorMessage u;
     u_cancelledAt := Some t |}.

(** [if (v) updateData.key = v]. *)
Definition set_if_truthy (setter : string -> UpdateData -> UpdateData)
    (v : option string) (u : UpdateData) : UpdateData :=
  if truthy_str v then setter (known v) u else u.

Definition assign {A : Type} (new : option A) (old : A) : A :=
  match new with
  | Some v => v
  | None => old
  end.

Definition assign_nullable {A : Type} (new : option A) (old : option A) : option A :=
  match new with
  | Some v => Some v
  | None => old
  end.

(** [set(updateData)] on one row: the columns [updateData] has a key for take
    its value, every other column keeps its own. *)
Definition set_columns (u : UpdateData) (row : Nfse) : Nfse :=
  {| id := id row;
     userId := userId row;
     taxInfoId := taxInfoId row;
     fiscalNacionalId := fiscalNacionalId row;
     fiscalNacionalReference := fiscalNacionalReference row;
     stripeSubscriptionId := stripeSubscriptionId row;
     stripeInvoiceId := stripeInvoiceId row;
     stripePaymentIntentId := stripePaymentIntentId row;
     stripeChargeId := stripeChargeId row;
     transactionType := transactionType row;
     nfseNumber := assign_nullable (u_nfseNumber u) (nfseNumber row);
     status := assign (u_status u) (status row);
     serviceDescription := serviceDescription row;
     productName := productName row;
     valueBrl := valueBrl row;
     valueUsd := valueUsd row;
     originalAmount := originalAmount row;
     originalCurrency := originalCurrency row;
     currencyCode := currencyCode row;
     exchangeRate := exchangeRate row;
     issRate := issRate row;
     issValue := issValue row;
     customerName := customerName row;
     customerEmail := customerEmail row;
     customerCountry := customerCountry row;
     customerDocument := customerDocument row;
     pdfUrl := assign_nullable (u_pdfUrl u) (pdfUrl row);
     xmlUrl := assign_nullable (u_xmlUrl u) (xmlUrl row);
     errorMessage := assign_nullable (u_errorMessage u) (errorMessage row);
     errorDetails := errorDetails row;
     issuedAt := assign_nullable (u_issuedAt u) (issuedAt row);
     cancelledAt := assign_nullable (u_cancelledAt u) (cancelledAt row);
     cancellationReason := cancellationReason row;
     createdAt := createdAt row;
     updatedAt := assign (u_updatedAt u) (updatedAt row) |}.

Inductive JsonReply : Type :=
| ErrorJson (error : string)
| ReceivedJson (received : bool).

Record HttpReply : Type := {
  http_body : JsonReply;
  http_status : Z
}.

(** [c.json(body, status)]; the status defaults to 200. *)
Definition json (body : JsonReply) (status : Z) : HttpReply :=
  {| http_body := body; http_status := status |}.

(** The part of the request the handler reads. *)
Record Request : Type := {
  header_X_Fiscal_Signature : option string;
  text : string
}.

(** The fields [updateNFSeFromWebhook] takes. *)
Record WebhookParams : Type := {
  p_reference : string;
  p_status : string;
  p_nfseNumber : option string;
  p_pdfUrl : option string;
  p_xmlUrl : option string;
  p_errorMessage : option string
}.

Section Handler.
Variable env : Env.
(** [env.FISCAL_WEBHOOK_SECRET], an optional string. *)
Variable FISCAL_WEBHOOK_SECRET : option string.

Definition newDateSt : Prog Event St Z := on_clock (fun e : Event => e) (newDate env).

(** [db.update(nfse).set(updateData).where(eq(nfse.fiscalNacionalReference, reference))]. *)
Definition updateNfse (updateData : UpdateData) (reference : string) : Prog Event St unit :=
  db_statement env UpdateNfse ;;
  s <- get ;;
  put (with_db
         {| userTaxInfo := userTaxInfo (db s);
            nfse := map (fun row =>
                           if (fiscalNacionalReference row =? reference)%string
                           then set_columns updateData row
                           else row) (nfse (db s));
            nfse_id_seq := nfse_id_seq (db s) |} s).

(** [NFSeService.updateNFSeFromWebhook]. *)
Definition updateNFSeFromWebhook (params : WebhookParams) : Prog Event St unit :=
  updatedAt <- newDateSt ;;
  let updateData :=
    {| u_status := Some (p_status params); u_updatedAt := Some updatedAt;
       u_issuedAt := None; u_nfseNumber := None; u_pdfUrl := None;
       u_xmlUrl := None; u_errorMessage := None; u_cancelledAt := None |} in
  updateData <-
    (if (p_status params =? "authorized")%string then
       issuedAt <- newDateSt ;;
       let updateData := set_issuedAt issuedAt updateData in
       let updateData := set_if_truthy set_nfseNumber (p_nfseNumber params) updateData in
       let updateData := set_if_truthy set_pdfUrl (p_pdfUrl params) updateData in
       let updateData := set_if_truthy set_xmlUrl (p_xmlUrl params) updateData in
       ret updateData
     else ret updateData) ;;
  let updateData :=
    if (p_status params =? "error")%string then
      set_errorMessage
        (if truthy_str (p_errorMessage params)
         then known (p_errorMessage params) else "Unknown error")
        updateData
    else updateData in
  updateData <-
    (if (p_status params =? "cancelled")%string then
       cancelledAt <- newDateSt ;;
       ret (set_cancelledAt cancelledAt updateData)
     else ret updateData) ;;
  updateNfse updateData (p_reference params).

(** [app.post("/webhook", ...)]. *)
Definition webhook (req : Request) : Prog Event St HttpReply :=
  (* Verify signature *)
  let signature := header_X_Fiscal_Signature req in
  let webhookSecret := FISCAL_WEBHOOK_SECRET in
  if negb (truthy_str signature) || negb (truthy_str webhookSecret)
  then ret (json (ErrorJson "Invalid signature") 401)
  else
    let body := text req in
    let expectedSignature := hmacSha256Hex env (known webhookSecret) body in
    let signatureBuffer := known signature in
    let expectedBuffer := expectedSignature in
    if negb (String.length signatureBuffer =? String.length expectedBuffer)%nat
       || negb (timingSafeEqual signatureBuffer expectedBuffer)
    then ret (json (ErrorJson "Invalid signature") 401)
    else
      (* Process webhook - parse from raw body *)
      data <- match parseWebhook env body with
              | Some d => ret d
              | None => throw "webhookSchema.parse"
              end ;;
      try_catch
        (updatedAt <- newDateSt ;;
         let updateData :=
           {| u_status := Some (wh_status data); u_updatedAt := Some updatedAt;
              u_issuedAt := None; u_nfseNumber := None; u_pdfUrl := None;
              u_xmlUrl := None; u_errorMessage := None; u_cancelledAt := None |} in
         updateData <-
           (if (wh_status data =? "authorized")%string then
              issuedAt <- newDateSt ;;
              let updateData := set_issuedAt issuedAt updateData in
              let updateData :=
                set_if_truthy set_nfseNumber (wh_nfse_number data) updateData in
              let updateData := set_if_truthy set_pdfUrl (wh_pdf_url data) updateData in
              let updateData := set_if_truthy set_xmlUrl (wh_xml_url data) updateData in
              ret updateData
            else ret updateData) ;;
         let updateData :=
           if (wh_status data =? "error")%string then
             set_errorMessage
               (if truthy_str (wh_error_message data)
                then known (wh_error_message data) else "Unknown error")
               updateData
           else updateData in
         updateData <-
           (if (wh_status data =? "cancelled")%string then
              cancelledAt <- newDateSt ;;
              ret (set_cancelledAt cancelledAt updateData)
            else ret updateData) ;;
         updateNfse updateData (wh_reference data) ;;
         ret (json (ReceivedJson true) 200))
        (fun error =>
           emit (WebhookConsoleError "Webhook processing error:") ;;
           ret (json (ErrorJson "Processing failed") 500)).
End Handler.

End Reconciler.

(* ====================================================================== *)
(** ** Scenarios: concrete environments and inputs *)

Module Scenario.
Import JS.

(** 2026-11-02T12:00:00Z. *)
Definition noon_2026_11_02 : Z := 1793620800000.

Definition no_quotes : FetchResult PTAXBody :=
  Response true "OK" (Some {| value := Some [] |}).

Definition quotes (l : list Cotacao) : FetchResult PTAXBody :=
  Response true "OK" (Some {| value := Some l |}).

(** An environment in which nothing outside answers: the processor rejects,
    the rate service has no quote on any day, the tax API is unreachable and
    the database accepts every statement. *)
Definition silent : Env :=
  {| clock := fun _ => noon_2026_11_02;
     Number_toString := fun _ => "";
     Date_toISOString := fun _ => "2026-11-02T12:00:00.000Z";
     stripe_charges_retrieve := fun _ => None;
     stripe_paymentIntents_retrieve := fun _ => None;
     fetch_ptax := fun _ => no_quotes;
     fetch_nfse := fun _ _ => TaxApiUnreachable;
     db_error := fun _ => None;
     db_now := noon_2026_11_02;
     hmacSha256Hex := fun _ _ => "";
     parseWebhook := fun _ => None |}.

(** [env] with another rate service. *)
Definition with_fetch_ptax (f : string -> FetchResult PTAXBody) (env : Env) : Env :=
  {| clock := clock env;
     Number_toString := Number_toString env;
     Date_toISOString := Date_toISOString env;
     stripe_charges_retrieve := stripe_charges_retrieve env;
     stripe_paymentIntents_retrieve := stripe_paymentIntents_retrieve env;
     fetch_ptax := f;
     fetch_nfse := fetch_nfse env;
     db_error := db_error env;
     db_now := db_now env;
     hmacSha256Hex := hmacSha256Hex env;
     parseWebhook := parseWebhook env |}.

Definition quote_2026_10_20 : Cotacao :=
  {| cotacaoCompra := 5.39%float;
     cotacaoVenda := 5.40%float;
     dataHoraCotacao := "2026-10-20 13:05:00.000" |}.

(** The rate service publishes a dollar quote for 20 October 2026 and for no
    other day. *)
Definition only_october_20 : Env :=
  with_fetch_ptax
    (fun url => if (url =? Currency.ptaxUrl "USD" "10-20-2026")%string
                then quotes [quote_2026_10_20]
                else no_quotes)
    silent.

(** The rate service quotes the dollar at 5.40 (sell) for 2 November 2026. *)
Definition dollar_at_5_40 : Env :=
  with_fetch_ptax
    (fun url => if (url =? Currency.ptaxUrl "USD" "11-02-2026")%string
                then quotes [{| cotacaoCompra := 5.39%float;
                                cotacaoVenda := 5.40%float;
                                dataHoraCotacao := "2026-11-02 13:05:00.000" |}]
                else no_quotes)
    silent.


(** 55.00 dollars, with no processor reference. *)
Definition usd_55 : Currency.ConvertParams :=
  {| Currency.amount := 55%float;
     Currency.currency := "USD";
     Currency.chargeId := None;
     Currency.paymentIntentId := None |}.


(** 100.00 reais, the code in lower case, with a charge reference. *)
Definition brl_100 : Currency.ConvertParams :=
  {| Currency.amount := 100%float;
     Currency.currency := "brl";
     Currency.chargeId := Some "ch_1";
     Currency.paymentIntentId := Some "pi_1" |}.

Fixpoint count_fetches (l : list CurrencyEvent) : nat :=
  match l with
  | [] => 0
  | FetchPTAX _ :: l' => S (count_fetches l')
  | _ :: l' => count_fetches l'
  end.

(** [env] with another tax API. *)
Definition with_fetch_nfse
    (f : FiscalNacionalConfig -> CreateNFSeRequest -> TaxApiReply) (env : Env) : Env :=
  {| clock := clock env;
     Number_toString := Number_toString env;
     Date_toISOString := Date_toISOString env;
     stripe_charges_retrieve := stripe_charges_retrieve env;
     stripe_paymentIntents_retrieve := stripe_paymentIntents_retrieve env;
     fetch_ptax := fetch_ptax env;
     fetch_nfse := f;
     db_error := db_error env;
     db_now := db_now env;
     hmacSha256Hex := hmacSha256Hex env;
     parseWebhook := parseWebhook env |}.


(** The tax API answers every request with 422. *)
Definition tax_api_rejects : Env :=
  with_fetch_nfse
    (fun _ _ => TaxApiNon2xx "Unprocessable Entity" (Some (Some "Tomador sem documento")))
    silent.

Definition company : FiscalNacionalConfig :=
  {| cnpj := "12345678000190";
     inscricaoMunicipal := "123456";
     cfg_codigoMunicipio := "3550308";
     cfg_itemListaServico := "01.02";
     cfg_codigoTributacaoMunicipio := "010201";
     cfg_codigoCnae := "6201501";
     cfg_aliquotaIss := 2.5%float |}.


(** The same profile with its CPF. *)
Definition domestic_with_document : TaxInfo :=
  {| ti_id := 7;
     ti_userId := 42;
     ti_country := "BR";
     ti_isBrazilian := true;
     ti_cpfCnpj := Some "12345678909";
     ti_nif := None;
     ti_nifExemptionCode := None;
     ti_fullName := "Maria Silva";
     ti_address := Some "Avenida Paulista";
     ti_number := Some "1000";
     ti_complement := None;
     ti_neighborhood := Some "Bela Vista";
     ti_city := Some "Sao Paulo";
     ti_cityCode := Some "3550308";
     ti_state := Some "SP";
     ti_postalCode := Some "01310-100";
     ti_inscricaoMunicipal := None;
     ti_createdAt := 0;
     ti_updatedAt := 0 |}.

(** A database with that one profile and no invoice. *)
Definition only_profile (t : TaxInfo) : St :=
  {| ticks := 0;
     db := {| userTaxInfo := [t]; nfse := []; nfse_id_seq := 0 |} |}.

(** A renewal of user 42, paid 100.00 reais. *)
Definition renewal : Issuer.SubscriptionParams :=
  {| Issuer.sub_userId := 42;
     Issuer.sub_stripeSubscriptionId := "sub_1";
     Issuer.sub_stripeInvoiceId := "in_1";
     Issuer.sub_stripeChargeId := None;
     Issuer.sub_stripePaymentIntentId := None;
     Issuer.sub_amount := 100%float;
     Issuer.sub_currency := "BRL";
     Issuer.sub_planName := "Pro";
     Issuer.sub_userEmail := "maria@example.com" |}.

(** An invoice of user 42 in state [processing], with a PDF already known. *)
Definition invoice_R1 : Nfse :=
  {| id := 1;
     userId := 42;
     taxInfoId := 7;
     fiscalNacionalId := None;
     fiscalNacionalReference := "R1";
     stripeSubscriptionId := Some "sub_1";
     stripeInvoiceId := Some "in_1";
     stripePaymentIntentId := None;
     stripeChargeId := None;
     transactionType := "subscription";
     nfseNumber := None;
     status := "processing";
     serviceDescription := "Pro";
     productName := Some "Pro";
     valueBrl := 100%float;
     valueUsd := None;
     originalAmount := Some 100%float;
     originalCurrency := Some "BRL";
     currencyCode := None;
     exchangeRate := Some 1%float;
     issRate := 0.02%float;
     issValue := 0%float;
     customerName := "Maria Silva";
     customerEmail := "maria@example.com";
     customerCountry := "BR";
     customerDocument := Some "12345678909";
     pdfUrl := Some "https://files.example/R1-draft.pdf";
     xmlUrl := None;
     errorMessage := None;
     errorDetails := None;
     issuedAt := None;
     cancelledAt := None;
     cancellationReason := None;
     createdAt := 0;
     updatedAt := 0 |}.

Definition one_invoice : St :=
  {| ticks := 0;
     db := {| userTaxInfo := [domestic_with_document];
              nfse := [invoice_R1];
              nfse_id_seq := 1 |} |}.

(** The notification a body stands for: the body is taken to be the status
    itself, for reference [R1], with an invoice number and no document
    URL. *)
Definition notification (status : string) : WebhookData :=
  {| wh_event := "nfse.status_changed";
     wh_reference := "R1";
     wh_status := status;
     wh_nfse_number := Some "2026000017";
     wh_pdf_url := None;
     wh_xml_url := None;
     wh_error_message := None;
     wh_timestamp := "2026-11-02T12:00:00Z" |}.

(** An environment for the webhook route: a signing function standing for
    HMAC-SHA256, and a parser that reads the body as above. *)
Definition reconciling : Env :=
  {| clock := fun k => noon_2026_11_02 + Z.of_nat k;
     Number_toString := fun _ => "";
     Date_toISOString := fun _ => "2026-11-02T12:00:00.000Z";
     stripe_charges_retrieve := fun _ => None;
     stripe_paymentIntents_retrieve := fun _ => None;
     fetch_ptax := fun _ => no_quotes;
     fetch_nfse := fun _ _ => TaxApiUnreachable;
     db_error := fun _ => None;
     db_now := noon_2026_11_02;
     hmacSha256Hex := fun key body => "mac:" ++ key ++ ":" ++ body;
     parseWebhook := fun body => Some (notification body) |}.

Definition signed (body : string) : Reconciler.Request :=
  {| Reconciler.header_X_Fiscal_Signature := Some ("mac:s3cret:" ++ body);
     Reconciler.text := body |}.

Definition unsigned (body : string) : Reconciler.Request :=
  {| Reconciler.header_X_Fiscal_Signature := None;
     Reconciler.text := body |}.

End Scenario.

(* ====================================================================== *)
(** ** Vocabulary of the statements *)

(** The eight spellings of the code of the real. *)
Definition BRL_spellings : list string :=
  ["BRL"; "BRl"; "BrL"; "Brl"; "bRL"; "bRl"; "brL"; "brl"].

(** The form the specification gives for the audit string, over the fields
    of a result: the symbol of the currency (its code, for a currency outside
    [CURRENCIES]), the amount to 2 decimals, the label of the source, the
    rate to 4 decimals, and the fees to 2 decimals when there are fees above
    zero. *)
Definition symbol_of (currency : string) : string :=
  match find (fun c => (Currency.code c =? currency)%string) Currency.CURRENCIES with
  | Some c => Currency.symbol c
  | None => currency
  end.

Definition audit_form (env : Env) (r : Currency.CurrencyConversionResult) : string :=
  "Valor original: " ++ symbol_of (Currency.originalCurrency r)
  ++ Currency.toFixed env (Currency.originalAmount r) 2
  ++ " - " ++ Currency.sourceLabels (Currency.source r)
  ++ ": R$ " ++ Currency.toFixed env (Currency.exchangeRate r) 4
  ++ match Currency.stripeFeesBrl r with
     | Some fees =>
         if (0 <? fees)%float
         then " - Taxas operacionais: R$ " ++ Currency.toFixed env fees 2
         else ""
     | None => ""
     end.

(** The requests a run sent to the tax API, in order. *)
Fixpoint tax_api_calls (l : list Event) : list CreateNFSeRequest :=
  match l with
  | [] => []
  | TaxApiCreateNFSe request :: l' => request :: tax_api_calls l'
  | _ :: l' => tax_api_calls l'
  end.

(** The two issuance entry points, as one. *)
Inductive Issuance : Type :=
| ForSubscription (params : Issuer.SubscriptionParams)
| ForCreditPurchase (params : Issuer.CreditPurchaseParams).

Definition issue (env : Env) (config : FiscalNacionalConfig)
    (convert : Currency.ConvertParams ->
               Prog CurrencyEvent nat Currency.CurrencyConversionResult)
    (i : Issuance) : Prog Event St Z :=
  match i with
  | ForSubscription p => Issuer.createNFSeForSubscription env config convert p
  | ForCreditPurchase p => Issuer.createNFSeForCreditPurchase env config convert p
  end.

Definition issuance_userId (i : Issuance) : Z :=
  match i with
  | ForSubscription p => Issuer.sub_userId p
  | ForCreditPurchase p => Issuer.cp_userId p
  end.


(** The parameters with which an issuance calls the currency service. *)
Definition conversion_params (i : Issuance) : Currency.ConvertParams :=
  match i with
  | ForSubscription p =>
      {| Currency.amount := Issuer.sub_amount p;
         Currency.currency := Issuer.sub_currency p;
         Currency.chargeId := Issuer.sub_stripeChargeId p;
         Currency.paymentIntentId := Issuer.sub_stripePaymentIntentId p |}
  | ForCreditPurchase p =>
      {| Currency.amount := Issuer.cp_amount p;
         Currency.currency := Issuer.cp_currency p;
         Currency.chargeId := Issuer.cp_stripeChargeId p;
         Currency.paymentIntentId := Some (Issuer.cp_stripePaymentIntentId p) |}
  end.

(** The profile an issuance loads: the first row of the user. *)
Definition profile_of (i : Issuance) (s : St) : option TaxInfo :=
  find (fun t => ti_userId t =? issuance_userId i) (userTaxInfo (db s)).

(** A run of an issuance that threw: nothing was written, and at most one
    request went to the tax API. *)
Definition threw (env : Env) (config : FiscalNacionalConfig)
    (convert : Currency.ConvertParams ->
               Prog CurrencyEvent nat Currency.CurrencyConversionResult)
    (i : Issuance) (s : St) : Prop :=
  (exists e, outcome (issue env config convert i s) = Thrown e)
  /\ db (final (issue env config convert i s)) = db s
  /\ (forall request,
        In request (tax_api_calls (events (issue env config convert i s))) ->
        tax_api_calls (events (issue env config convert i s)) = [request]).

(** A run whose currency conversion did not return within the fuel. *)
Definition conversion_pending (env : Env) (config : FiscalNacionalConfig)
    (convert : Currency.ConvertParams ->
               Prog CurrencyEvent nat Currency.CurrencyConversionResult)
    (i : Issuance) (s : St) : Prop :=
  outcome (issue env config convert i s) = OutOfFuel
  /\ db (final (issue env config convert i s)) = db s
  /\ tax_api_calls (events (issue env config convert i s)) = []
  /\ exists taxInfo k l,
       profile_of i s = Some taxInfo
       /\ convert (conversion_params i) (ticks s) = (OutOfFuel, k, l).

(** A run that issued: the profile was found, the conversion returned, the
    tax API accepted the one request sent, and one row was appended. *)
Definition issued (env : Env) (config : FiscalNacionalConfig)
    (convert : Currency.ConvertParams ->
               Prog CurrencyEvent nat Currency.CurrencyConversionResult)
    (i : Issuance) (s : St) : Prop :=
  exists taxInfo conversion k l request body row,
    profile_of i s = Some taxInfo
    /\ convert (conversion_params i) (ticks s) = (Returned conversion, k, l)
    /\ tax_api_calls (events (issue env config convert i s)) = [request]
    /\ fetch_nfse env config request = TaxApi2xx (Some body)
    /\ outcome (issue env config convert i s) = Returned (id row)
    /\ nfse (db (final (issue env config convert i s))) = (nfse (db s) ++ [row])%list
    /\ fiscalNacionalReference row = referencia body
    /\ status row = body_status body.

(** A request that passes the signature check: it carries a signature, a
    secret is configured, and the signature is the HMAC of the raw body. *)
Definition authenticated (env : Env) (secret : option string) (req : Reconciler.Request)
  : Prop :=
  exists sig key,
    Reconciler.header_X_Fiscal_Signature req = Some sig
    /\ secret = Some key
    /\ sig <> ""
    /\ key <> ""
    /\ sig = hmacSha256Hex env key (Reconciler.text req).

(** The table after an update of the rows with a reference. *)
Definition reconcile (reference : string) (f : Nfse -> Nfse) (d : Store) : Store :=
  {| userTaxInfo := userTaxInfo d;
     nfse := map (fun row =>
                    if (fiscalNacionalReference row =? reference)%string
                    then f row else row) (nfse d);
     nfse_id_seq := nfse_id_seq d |}.

(** A row after an [authorized] notification: the status, the two
    timestamps, and the invoice number and document URLs the notification
    carries; every other column as it was. *)
Definition authorized_row (data : WebhookData) (updatedAt' issuedAt' : Z) (row : Nfse)
  : Nfse :=
  {| id := id row;
     userId := userId row;
     taxInfoId := taxInfoId row;
     fiscalNacionalId := fiscalNacionalId row;
     fiscalNacionalReference := fiscalNacionalReference row;
     stripeSubscriptionId := stripeSubscriptionId row;
     stripeInvoiceId := stripeInvoiceId row;
     stripePaymentIntentId := stripePaymentIntentId row;
     stripeChargeId := stripeChargeId row;
     transactionType := transactionType row;
     nfseNumber := if JS.truthy_str (wh_nfse_number data)
                   then wh_nfse_number data else nfseNumber row;
     status := "authorized";
     serviceDescription := serviceDescription row;
     productName := productName row;
     valueBrl := valueBrl row;
     valueUsd := valueUsd row;
     originalAmount := originalAmount row;
     originalCurrency := originalCurrency row;
     currencyCode := currencyCode row;
     exchangeRate := exchangeRate row;
     issRate := issRate row;
     issValue := issValue row;
     customerName := customerName row;
     customerEmail := customerEmail row;
     customerCountry := customerCountry row;
     customerDocument := customerDocument row;
     pdfUrl := if JS.truthy_str (wh_pdf_url data) then wh_pdf_url data else pdfUrl row;
     xmlUrl := if JS.truthy_str (wh_xml_url data) then wh_xml_url data else xmlUrl row;
     errorMessage := errorMessage row;
     errorDetails := errorDetails row;
     issuedAt := Some issuedAt';
     cancelledAt := cancelledAt row;
     cancellationReason := cancellationReason row;
     createdAt := createdAt row;
     updatedAt := updatedAt' |}.

(** A row with another status and [updatedAt], every other column as it
    was. *)
Definition with_status (status' : string) (updatedAt' : Z) (row : Nfse) : Nfse :=
  {| id := id row;
     userId := userId row;
     taxInfoId := taxInfoId row;
     fiscalNacionalId := fiscalNacionalId row;
     fiscalNacionalReference := fiscalNacionalReference row;
     stripeSubscriptionId := stripeSubscriptionId row;
     stripeInvoiceId := stripeInvoiceId row;
     stripePaymentIntentId := stripePaymentIntentId row;
     stripeChargeId := stripeChargeId row;
     transactionType := transactionType row;
     nfseNumber := nfseNumber row;
     status := status';
     serviceDescription := serviceDescription row;
     productName := productName row;
     valueBrl := valueBrl row;
     valueUsd := valueUsd row;
     originalAmount := originalAmount row;
     originalCurrency := originalCurrency row;
     currencyCode := currencyCode row;
     exchangeRate := exchangeRate row;
     issRate := issRate row;
     issValue := issValue row;
     customerName := customerName row;
     customerEmail := customerEmail row;
     customerCountry := customerCountry row;
     customerDocument := customerDocument row;
     pdfUrl := pdfUrl row;
     xmlUrl := xmlUrl row;
     errorMessage := errorMessage row;
     errorDetails := errorDetails row;
     issuedAt := issuedAt row;
     cancelledAt := cancelledAt row;
     cancellationReason := cancellationReason row;
     createdAt := createdAt row;
     updatedAt := updatedAt' |}.

(** [200 { received: true }]. *)
Definition received : Reconciler.HttpReply :=
  Reconciler.json (Reconciler.ReceivedJson true) 200.

(** The fields of a notification, as [updateNFSeFromWebhook] takes them. *)
Definition params_of (data : WebhookData) : Reconciler.WebhookParams :=
  {| Reconciler.p_reference := wh_reference data;
     Reconciler.p_status := wh_status data;
     Reconciler.p_nfseNumber := wh_nfse_number data;
     Reconciler.p_pdfUrl := wh_pdf_url data;
     Reconciler.p_xmlUrl := wh_xml_url data;
     Reconciler.p_errorMessage := wh_error_message data |}.

(* ====================================================================== *)
(** ** Running a computation in a proof *)

(** Unfold the plumbing of [Prog] and nothing else. *)
Ltac prog_step :=
  cbv beta iota zeta delta
    [bind ret throw emit try_catch newDate get put zoom on_clock db_statement
     outcome final events negb];
  cbn [fst snd app map].

(* ====================================================================== *)
(** ** The official daily rate lookup *)

(** The day before a valid date is exactly one day earlier, so the test that
    guards the retry holds at every level of the recursion: it compares the
    date of the current call with its own previous day, not with the date
    first requested. *)
Lemma within7Days_previous_day (targetDate previousDay : Z) :
  JS.addDays targetDate (-1) = Some previousDay ->
  Currency.within7Days targetDate previousDay = true.
Proof.
  unfold JS.addDays, JS.timeClip.
  destruct (Z.abs (targetDate + -1 * JS.msPerDay) <=? JS.maxTimeValue); [|discriminate].
  intros H; injection H as <-.
  unfold Currency.within7Days.
  match goal with
  | |- context [(inject_Z ?d / _)%Q] =>
      replace d with JS.msPerDay by (unfold JS.msPerDay; lia)
  end.
  reflexivity.
Qed.

(** C1, at a failing input.  The rate service has a dollar quote for
    20 October 2026 only.  Asked for 2 November 2026, [getPTAXRate] does not
    stop after 7 days: it requests 14 consecutive days, back to 20 October
    (13 days before the requested date), and returns that day's quote instead
    of [null]. *)
Theorem getPTAXRate_goes_back_13_days :
  let run := Currency.getPTAXRate Scenario.only_october_20 20 "USD"
               (Some Scenario.noon_2026_11_02) 0%nat in
  outcome run
    = Returned (Some {| Currency.buyRate := 5.39%float;
                        Currency.sellRate := 5.40%float;
                        Currency.date := "2026-10-20 13:05:00.000" |})
  /\ Scenario.count_fetches (events run) = 14%nat
  /\ nth_error (events run) 13
       = Some (FetchPTAX (Currency.ptaxUrl "USD" "10-20-2026")).
Proof.
  vm_compute. repeat split.
Qed.

(** Where the rate service has no quote on any day, the lookup never returns
    on its own: while the dates stay valid, every unit of fuel is spent on one
    more request for one more day back. *)
Lemma getPTAXRate_keeps_going_back (env : Env) (currency : string) :
  (forall url, fetch_ptax env url = Scenario.no_quotes) ->
  forall (fuel : nat) (targetDate : Z) (k : nat),
    - JS.maxTimeValue + Z.of_nat fuel * JS.msPerDay <= targetDate <= JS.maxTimeValue ->
    outcome (Currency.getPTAXRate env fuel currency (Some targetDate) k) = OutOfFuel
    /\ Scenario.count_fetches
         (events (Currency.getPTAXRate env fuel currency (Some targetDate) k)) = fuel.
Proof.
  intros Hfetch fuel.
  induction fuel as [|fuel IH]; intros targetDate k Hrange.
  - split; reflexivity.
  - assert (Hprev : JS.addDays targetDate (-1) = Some (targetDate - JS.msPerDay)).
    { unfold JS.addDays, JS.timeClip.
      replace (targetDate + -1 * JS.msPerDay) with (targetDate - JS.msPerDay) by lia.
      destruct (Z.leb_spec (Z.abs (targetDate - JS.msPerDay)) JS.maxTimeValue) as [_|Hbad];
        [reflexivity|].
      unfold JS.msPerDay, JS.maxTimeValue in *. lia. }
    assert (Hguard := within7Days_previous_day _ _ Hprev).
    destruct (IH (targetDate - JS.msPerDay) k) as [IHo IHe].
    { unfold JS.msPerDay, JS.maxTimeValue in *. lia. }
    revert IHo IHe.
    cbn [Currency.getPTAXRate].
    cbv beta iota zeta delta [bind ret throw emit try_catch outcome events fst snd].
    rewrite Hfetch.
    cbv beta iota zeta delta [Scenario.no_quotes negb value].
    rewrite Hprev, Hguard.
    destruct (Currency.getPTAXRate env fuel currency (Some (targetDate - JS.msPerDay)) k)
      as [[o s] l].
    cbv beta iota zeta delta [fst snd].
    intros -> <-. split; reflexivity.
Qed.

(* ====================================================================== *)
(** ** Facts on the built-ins *)

Lemma append_empty_r (s : string) : s ++ "" = s.
Proof.
  induction s as [|c s IH]; [reflexivity|].
  cbn. now rewrite IH.
Qed.

Lemma append_assoc (a b c : string) : (a ++ b) ++ c = a ++ (b ++ c).
Proof. induction a as [|x a IH]; [reflexivity|]. cbn. now rewrite IH. Qed.


Lemma Returned_inj {A : Type} (a b : A) : Returned a = Returned b -> a = b.
Proof. now intros [= ->]. Qed.




Lemma BRL_in_any_letter_case (currency : string) :
  In currency BRL_spellings -> JS.toUpperCase currency = "BRL".
Proof.
  unfold BRL_spellings. cbn [In].
  intros H; repeat (destruct H as [<-|H]; [reflexivity|]); destruct H.
Qed.

(** A number greater than zero is truthy. *)
Lemma positive_is_truthy (f : float) :
  JS.truthy_num f && (0 <? f)%float = (0 <? f)%float.
Proof.
  unfold JS.truthy_num, PrimFloat.is_nan.
  rewrite FloatAxioms.ltb_spec, !FloatAxioms.eqb_spec.
  change (Prim2SF 0%float) with (S754_zero false).
  destruct (Prim2SF f) as [s|s| |s m e]; try reflexivity.
  - destruct s; reflexivity.
  - destruct s; unfold SFeqb, SFltb; cbn; [now rewrite andb_false_r|].
    rewrite Z.compare_refl.
    change (PosDef.Pos.compare_cont Eq m m) with (Pos.compare m m).
    now rewrite Pos.compare_refl.
Qed.

(* ====================================================================== *)
(** ** The currency resolver *)

(** The two processor lookups always return, and leave the clock alone. *)
Lemma getStripeBalanceInfo_returns (env : Env) (chargeId : string) (k : nat) :
  exists info l,
    Currency.getStripeBalanceInfo env chargeId k = (Returned info, k, l).
Proof.
  unfold Currency.getStripeBalanceInfo. prog_step.
  destruct (stripe_charges_retrieve env chargeId) as [charge|]; prog_step; [|eauto].
  destruct (charge_balance_transaction charge); prog_step; eauto.
Qed.

Lemma getStripeBalanceInfoFromPaymentIntent_returns (env : Env)
    (paymentIntentId : string) (k : nat) :
  exists info l,
    Currency.getStripeBalanceInfoFromPaymentIntent env paymentIntentId k
    = (Returned info, k, l).
Proof.
  unfold Currency.getStripeBalanceInfoFromPaymentIntent. prog_step.
  destruct (stripe_paymentIntents_retrieve env paymentIntentId) as [intent|];
    prog_step; [|eauto].
  destruct (pi_latest_charge intent) as [|i|charge]; prog_step; eauto.
  destruct (getStripeBalanceInfo_returns env (charge_id charge) k) as (info & l & ->).
  eauto.
Qed.


(** C4.  For the code of the real in any letter case, [convertToBRL] returns
    the identity conversion: [amountBrl] is the amount itself, the rate is 1,
    the source is [stripe_balance], and no fee is reported (the result has
    neither [stripeFeesBrl] nor [netAmountBrl]).  The call emits no event: it
    reaches neither the processor nor the rate service, and it does not take
    the fallback path (which logs a warning); it only reads the clock. *)
Theorem convertToBRL_BRL_identity (env : Env) (fuel : nat)
    (params : Currency.ConvertParams) (k : nat) :
  JS.toUpperCase (Currency.currency params) = "BRL" ->
  Currency.convertToBRL env fuel params k
  = (Returned {| Currency.amountBrl := Currency.amount params;
                 Currency.originalAmount := Currency.amount params;
                 Currency.originalCurrency := "BRL";
                 Currency.exchangeRate := 1%float;
                 Currency.source := Currency.stripe_balance;
                 Currency.rateDate := Date_toISOString env (clock env k);
                 Currency.auditDescription :=
                   "Pagamento em BRL - sem conversão necessária";
                 Currency.stripeFeesBrl := None;
                 Currency.netAmountBrl := None |},
     S k, [])
  /\ Currency.source_code Currency.stripe_balance = "stripe_balance".
Proof.
  intros H. split; [|reflexivity].
  unfold Currency.convertToBRL. rewrite H. reflexivity.
Qed.

Lemma convertToBRL_BRL_identity_witness :
  Currency.convertToBRL Scenario.silent 0 Scenario.brl_100 0%nat
  = (Returned {| Currency.amountBrl := 100%float;
                 Currency.originalAmount := 100%float;
                 Currency.originalCurrency := "BRL";
                 Currency.exchangeRate := 1%float;
                 Currency.source := Currency.stripe_balance;
                 Currency.rateDate := "2026-11-02T12:00:00.000Z";
                 Currency.auditDescription :=
                   "Pagamento em BRL - sem conversão necessária";
                 Currency.stripeFeesBrl := None;
                 Currency.netAmountBrl := None |},
     1%nat, [])
  /\ Currency.source_code Currency.stripe_balance = "stripe_balance".
Proof.
  apply (convertToBRL_BRL_identity Scenario.silent 0 Scenario.brl_100 0%nat).
  reflexivity.
Defined.





(* ---------------------------------------------------------------------- *)
(** *** The audit string *)

Lemma buildAuditDescription_form (env : Env) (originalAmount : float)
    (currency : string) (rate : float) (source : Currency.Source) (fees : option float) :
  Currency.buildAuditDescription env originalAmount currency rate source fees
  = "Valor original: " ++ symbol_of currency
    ++ Currency.toFixed env originalAmount 2
    ++ " - " ++ Currency.sourceLabels source
    ++ ": R$ " ++ Currency.toFixed env rate 4
    ++ match fees with
       | Some f =>
           if (0 <? f)%float
           then " - Taxas operacionais: R$ " ++ Currency.toFixed env f 2
           else ""
       | None => ""
       end.
Proof.
  unfold Currency.buildAuditDescription, symbol_of.
  assert (Hsym :
    match find (fun c => (Currency.code c =? currency)%string) Currency.CURRENCIES with
    | Some c => if (Currency.symbol c =? "")%string then currency else Currency.symbol c
    | None => currency
    end
    = match find (fun c => (Currency.code c =? currency)%string) Currency.CURRENCIES with
      | Some c => Currency.symbol c
      | None => currency
      end).
  { unfold Currency.CURRENCIES, find.
    cbv beta iota delta [Currency.code].
    repeat match goal with
           | |- context [if (?a =? currency)%string then _ else _] =>
               destruct (a =? currency)%string; [reflexivity|]
           end.
    reflexivity. }
  rewrite Hsym.
  set (sym := match find _ Currency.CURRENCIES with Some c => Currency.symbol c | None => currency end).
  cbv zeta.
  destruct fees as [f|].
  - rewrite positive_is_truthy. destruct (0 <? f)%float.
    + rewrite !append_assoc. reflexivity.
    + rewrite ?append_assoc, ?append_empty_r. reflexivity.
  - rewrite ?append_assoc, ?append_empty_r. reflexivity.
Qed.


(** C7, as stated, fails on the identity result: for an amount in reais the
    audit string is a fixed sentence, which does not start with
    [Valor original:] and is not of the form. *)
Lemma audit_string_of_BRL_result_has_another_form :
  exists r,
    outcome (Currency.convertToBRL Scenario.silent 0 Scenario.brl_100 0%nat) = Returned r
    /\ Currency.auditDescription r = "Pagamento em BRL - sem conversão necessária"
    /\ prefix "Valor original: " (Currency.auditDescription r) = false
    /\ Currency.auditDescription r <> audit_form Scenario.silent r.
Proof.
  eexists. split; [reflexivity|].
  split; [reflexivity|]. split; [reflexivity|].
  vm_compute. discriminate.
Qed.

(** C7, amended.  Every result that [convertToBRL] returns for a currency
    other than the real carries an audit string of the form
    [Valor original: <symbol><amount> - <source label>: R$ <rate>], followed
    by [ - Taxas operacionais: R$ <fees>] when the result has fees above
    zero; the identity result for the real carries the fixed sentence
    [Pagamento em BRL - sem conversão necessária] instead. *)
Theorem auditDescription_has_the_form (env : Env) (fuel : nat)
    (params : Currency.ConvertParams) (k : nat) (r : Currency.CurrencyConversionResult) :
  outcome (Currency.convertToBRL env fuel params k) = Returned r ->
  Currency.auditDescription r
  = if (JS.toUpperCase (Currency.currency params) =? "BRL")%string
    then "Pagamento em BRL - sem conversão necessária"
    else audit_form env r.
Proof.
  unfold Currency.convertToBRL.
  destruct (JS.toUpperCase (Currency.currency params) =? "BRL")%string.
  { prog_step. intros H; apply Returned_inj in H; subst r. reflexivity. }
  unfold bind at 1 2. cbv beta iota delta [newDate].
  assert (Hcharge : exists info l,
    (match Currency.chargeId params with
     | Some c => if JS.truthy_str (Some c) then Currency.getStripeBalanceInfo env c
                 else ret None
     | None => ret None
     end) (S k) = (Returned info, S k, l)).
  { destruct (Currency.chargeId params) as [c|]; [|do 2 eexists; reflexivity].
    destruct (JS.truthy_str (Some c)); [|do 2 eexists; reflexivity].
    apply getStripeBalanceInfo_returns. }
  destruct Hcharge as (info1 & l1 & ->).
  destruct info1 as [stripeInfo|].
  { prog_step. intros H; apply Returned_inj in H; subst r.
    unfold audit_form. cbn [Currency.auditDescription Currency.originalCurrency
      Currency.originalAmount Currency.source Currency.exchangeRate Currency.stripeFeesBrl].
    apply buildAuditDescription_form. }
  unfold bind at 1.
  assert (Hintent : exists info l,
    (match Currency.paymentIntentId params with
     | Some p => if JS.truthy_str (Some p)
                 then Currency.getStripeBalanceInfoFromPaymentIntent env p
                 else ret None
     | None => ret None
     end) (S k) = (Returned info, S k, l)).
  { destruct (Currency.paymentIntentId params) as [p|]; [|do 2 eexists; reflexivity].
    destruct (JS.truthy_str (Some p)); [|do 2 eexists; reflexivity].
    apply getStripeBalanceInfoFromPaymentIntent_returns. }
  destruct Hintent as (info2 & l2 & ->).
  destruct info2 as [stripeInfo|].
  { prog_step. intros H; apply Returned_inj in H; subst r.
    unfold audit_form. cbn [Currency.auditDescription Currency.originalCurrency
      Currency.originalAmount Currency.source Currency.exchangeRate Currency.stripeFeesBrl].
    apply buildAuditDescription_form. }
  unfold bind at 1.
  destruct (Currency.getPTAXRate env fuel _ None (S k)) as [[[[rate|]| |] s] l];
    prog_step; intros H; try discriminate H; apply Returned_inj in H; subst r;
    unfold audit_form; cbn [Currency.auditDescription Currency.originalCurrency
      Currency.originalAmount Currency.source Currency.exchangeRate Currency.stripeFeesBrl];
    apply buildAuditDescription_form.
Qed.

Lemma auditDescription_has_the_form_witness :
  Currency.auditDescription
    {| Currency.amountBrl := 297%float;
       Currency.originalAmount := 55%float;
       Currency.originalCurrency := "USD";
       Currency.exchangeRate := 5.4%float;
       Currency.source := Currency.ptax;
       Currency.rateDate := "2026-11-02 13:05:00.000";
       Currency.auditDescription :=
         "Valor original: $55.00 - Taxa PTAX (Banco Central): R$ 5.4000";
       Currency.stripeFeesBrl := None;
       Currency.netAmountBrl := None |}
  = if (JS.toUpperCase (Currency.currency Scenario.usd_55) =? "BRL")%string
    then "Pagamento em BRL - sem conversão necessária"
    else audit_form Scenario.dollar_at_5_40
           {| Currency.amountBrl := 297%float;
              Currency.originalAmount := 55%float;
              Currency.originalCurrency := "USD";
              Currency.exchangeRate := 5.4%float;
              Currency.source := Currency.ptax;
              Currency.rateDate := "2026-11-02 13:05:00.000";
              Currency.auditDescription :=
                "Valor original: $55.00 - Taxa PTAX (Banco Central): R$ 5.4000";
              Currency.stripeFeesBrl := None;
              Currency.netAmountBrl := None |}.
Proof.
  apply (auditDescription_has_the_form Scenario.dollar_at_5_40 1 Scenario.usd_55 0%nat).
  vm_compute. reflexivity.
Defined.

(* ---------------------------------------------------------------------- *)
(** *** The scenario of the specification *)

(** C8.  55.00 dollars, no charge and no payment-intent reference, and a
    rate service whose quote for the requested day sells the dollar at 5.40:
    [convertToBRL] returns [amountBrl = 297] exactly (the binary64 product
    [55 * 5.4] is 297) from source [ptax]. *)
Theorem convertToBRL_55_dollars_at_5_40 (env : Env) (fuel k : nat)
    (statusText : string) (quote : Cotacao) :
  fetch_ptax env
    (Currency.ptaxUrl "USD" (Currency.formatDateForBACEN (clock env (S k))))
  = Response true statusText (Some {| value := Some [quote] |}) ->
  cotacaoVenda quote = 5.40%float ->
  exists r,
    outcome (Currency.convertToBRL env (S fuel) Scenario.usd_55 k) = Returned r
    /\ Currency.amountBrl r = 297.00%float
    /\ Currency.source r = Currency.ptax
    /\ Currency.source_code (Currency.source r) = "ptax".
Proof.
  intros Hfetch Hsell.
  unfold Currency.convertToBRL, Scenario.usd_55.
  change (JS.toUpperCase (Currency.currency _)) with "USD".
  change ("USD" =? "BRL")%string with false.
  cbv beta iota zeta delta
    [Currency.amount Currency.currency Currency.chargeId Currency.paymentIntentId].
  prog_step.
  unfold Currency.getPTAXRate. prog_step.
  rewrite Hfetch. prog_step.
  cbv beta iota zeta delta [value last].
  eexists. split; [reflexivity|].
  cbv beta iota delta [Currency.amountBrl Currency.source Currency.sellRate].
  rewrite Hsell. repeat split.
Qed.

Lemma convertToBRL_55_dollars_at_5_40_witness :
  exists r,
    outcome (Currency.convertToBRL Scenario.dollar_at_5_40 1 Scenario.usd_55 0%nat)
    = Returned r
    /\ Currency.amountBrl r = 297.00%float
    /\ Currency.source r = Currency.ptax
    /\ Currency.source_code (Currency.source r) = "ptax".
Proof.
  apply (convertToBRL_55_dollars_at_5_40 Scenario.dollar_at_5_40 0 0
           "OK" {| cotacaoCompra := 5.39%float;
                   cotacaoVenda := 5.40%float;
                   dataHoraCotacao := "2026-11-02 13:05:00.000" |}).
  - reflexivity.
  - reflexivity.
Defined.

(* ====================================================================== *)
(** ** The invoice issuer *)

Lemma tax_api_calls_of_currency_events (l : list CurrencyEvent) :
  tax_api_calls (map ByCurrencyService l) = [].
Proof.
  induction l as [|e l IH]; [reflexivity|exact IH].
Qed.

Lemma tax_api_calls_app (l1 l2 : list Event) :
  tax_api_calls (l1 ++ l2) = (tax_api_calls l1 ++ tax_api_calls l2)%list.
Proof.
  induction l1 as [|e l1 IH]; [reflexivity|].
  destruct e; cbn; now rewrite IH.
Qed.

(** Building the customer payload returns or throws; it touches neither the
    state nor the outside. *)
Lemma buildTomador_run (taxInfo : TaxInfo) (email : string) (s : St) :
  exists o, Issuer._buildTomadorFromTaxInfo taxInfo email s = (o, s, [])
            /\ o <> OutOfFuel.
Proof.
  unfold Issuer._buildTomadorFromTaxInfo.
  destruct (ti_isBrazilian taxInfo); [|eexists; split; [reflexivity|discriminate]].
  destruct (JS.truthy_str (Some (ti_fullName taxInfo)));
    destruct (ti_cpfCnpj taxInfo); destruct (ti_postalCode taxInfo);
    eexists; (split; [reflexivity|discriminate]).
Qed.

Section IssuerFacts.
Variable env : Env.
Variable config : FiscalNacionalConfig.
Variable convert :
  Currency.ConvertParams -> Prog CurrencyEvent nat Currency.CurrencyConversionResult.

Ltac nothing_written :=
  intros [= <- <- <-]; left;
  rewrite ?tax_api_calls_app, ?tax_api_calls_of_currency_events;
  cbn [tax_api_calls app db with_ticks];
  split; [eexists; reflexivity|];
  split; [reflexivity|];
  first [intros ? [<-|[]]; reflexivity | intros ? []].

(** Every run of an issuance is of one of three kinds. *)
Lemma issue_run (i : Issuance) (s : St) :
  threw env config convert i s
  \/ conversion_pending env config convert i s
  \/ issued env config convert i s.
Proof.
  unfold threw, conversion_pending, issued, profile_of.
  destruct (issue env config convert i s) as [[o st] l] eqn:E.
  unfold final, outcome, events. cbn [fst snd].
  revert E.
  destruct i as [p|p]; unfold issue;
    [unfold Issuer.createNFSeForSubscription|unfold Issuer.createNFSeForCreditPurchase];
    unfold Issuer.selectTaxInfo, Issuer.createNFSe, Issuer.insertNfse.
  all: cbn [issuance_userId conversion_params].
  all: prog_step.
  all: destruct (db_error env SelectTaxInfo); [nothing_written|].
  all: destruct (find _ (userTaxInfo (db s))) as [taxInfo|]; [|nothing_written].
  all: prog_step.
  all: destruct (convert _ (ticks s)) as [[[conversion|e|] k] lc] eqn:Hconv;
    [|prog_step; nothing_written|].
  all: try (prog_step; intros [= <- <- <-]; right; left;
            rewrite tax_api_calls_of_currency_events; repeat split; eauto).
  all: match goal with
       | |- context [Issuer._buildTomadorFromTaxInfo ?t ?email ?s0] =>
           destruct (buildTomador_run t email s0) as (ot & -> & Ho)
       end.
  all: destruct ot as [tomador|e|]; [| prog_step; nothing_written |contradiction].
  all: match goal with
       | |- context [fetch_nfse env config ?r] => set (request := r)
       end.
  all: destruct (fetch_nfse env config request) as [|stx [body|]|[body|]] eqn:Hreply;
    prog_step; try nothing_written.
  all: destruct (db_error env InsertNfse); prog_step; [nothing_written|].
  all: intros [= <- <- <-]; right; right;
    rewrite tax_api_calls_app, tax_api_calls_of_currency_events;
    exists taxInfo, conversion, k, lc, request, body; eexists;
    cbn [tax_api_calls app db with_db with_ticks nfse];
    rewrite Hreply; repeat split; reflexivity.
Qed.

(** C3.  Issuance is all-or-nothing, on both entry points.  If the user
    has no tax profile, or the currency conversion throws, or the tax API
    answers the request it is sent with a non-2xx response, the call throws
    and the [nfse] table is left as it was.  And whenever the table
    changes, one request was sent to the tax API, it was answered 2xx, and
    the change is one appended row carrying the reference of that answer. *)
Theorem issuance_is_all_or_nothing (i : Issuance) (s : St) :
  (profile_of i s = None
   \/ (exists e k l, convert (conversion_params i) (ticks s) = (Thrown e, k, l))
   \/ (exists request statusText body,
         In request (tax_api_calls (events (issue env config convert i s)))
         /\ fetch_nfse env config request = TaxApiNon2xx statusText body)
   -> (exists e, outcome (issue env config convert i s) = Thrown e)
      /\ nfse (db (final (issue env config convert i s))) = nfse (db s))
  /\ (nfse (db (final (issue env config convert i s))) <> nfse (db s)
      -> exists request body row,
           tax_api_calls (events (issue env config convert i s)) = [request]
           /\ fetch_nfse env config request = TaxApi2xx (Some body)
           /\ nfse (db (final (issue env config convert i s)))
              = (nfse (db s) ++ [row])%list
           /\ fiscalNacionalReference row = referencia body).
Proof.
  destruct (issue_run i s) as [T|[P|I]].
  - destruct T as (Hthrown & Hdb & _). split.
    + intros _. split; [exact Hthrown|now rewrite Hdb].
    + intros Hchanged. now rewrite Hdb in Hchanged.
  - destruct P as (Hout & Hdb & Hcalls & taxInfo & k & l & Hprofile & Hconv). split.
    + intros [Hnone|[(e & k' & l' & Hthrows)|(request & st & body & Hin & _)]].
      * rewrite Hprofile in Hnone. discriminate Hnone.
      * rewrite Hconv in Hthrows. discriminate Hthrows.
      * rewrite Hcalls in Hin. destruct Hin.
    + intros Hchanged. now rewrite Hdb in Hchanged.
  - destruct I as (taxInfo & conversion & k & l & request & body & row
                   & Hprofile & Hconv & Hcalls & Hreply & Hout & Hrows & Href & _).
    split.
    + intros [Hnone|[(e & k' & l' & Hthrows)|(request' & st & body' & Hin & Hno)]].
      * rewrite Hprofile in Hnone. discriminate Hnone.
      * rewrite Hconv in Hthrows. discriminate Hthrows.
      * rewrite Hcalls in Hin. destruct Hin as [<-|[]].
        rewrite Hreply in Hno. discriminate Hno.
    + intros _. exists request, body, row. auto.
Qed.



End IssuerFacts.

Lemma issuance_is_all_or_nothing_witness :
  (exists e,
     outcome (issue Scenario.tax_api_rejects Scenario.company
                (Currency.convertToBRL Scenario.tax_api_rejects 1)
                (ForSubscription Scenario.renewal)
                (Scenario.only_profile Scenario.domestic_with_document))
     = Thrown e)
  /\ nfse (db (final (issue Scenario.tax_api_rejects Scenario.company
                        (Currency.convertToBRL Scenario.tax_api_rejects 1)
                        (ForSubscription Scenario.renewal)
                        (Scenario.only_profile Scenario.domestic_with_document))))
     = nfse (db (Scenario.only_profile Scenario.domestic_with_document)).
Proof.
  apply (proj1 (issuance_is_all_or_nothing Scenario.tax_api_rejects Scenario.company
                  (Currency.convertToBRL Scenario.tax_api_rejects 1)
                  (ForSubscription Scenario.renewal)
                  (Scenario.only_profile Scenario.domestic_with_document))).
  right. right.
  eexists. exists "Unprocessable Entity", (Some (Some "Tomador sem documento")).
  split; [|reflexivity].
  vm_compute. left. reflexivity.
Defined.



(* ====================================================================== *)
(** ** The webhook reconciler *)

Lemma differing_bits_refl (a : string) : JS.differing_bits a a = 0%N.
Proof.
  induction a as [|c a IH]; [reflexivity|].
  cbn. now rewrite N.lxor_nilpotent, IH.
Qed.

Lemma timingSafeEqual_refl (a : string) : JS.timingSafeEqual a a = true.
Proof.
  unfold JS.timingSafeEqual. now rewrite differing_bits_refl.
Qed.

(** On buffers of one length, [timingSafeEqual] is equality. *)
Lemma timingSafeEqual_eq (a b : string) :
  String.length a = String.length b ->
  JS.timingSafeEqual a b = true -> a = b.
Proof.
  unfold JS.timingSafeEqual.
  revert b. induction a as [|x a IH]; intros [|y b] Hlen H; try discriminate Hlen.
  - reflexivity.
  - cbn in H. apply N.eqb_eq, N.lor_eq_0_iff in H. destruct H as [Hx Hrest].
    apply N.lxor_eq in Hx.
    f_equal.
    + rewrite <- (ascii_N_embedding x), <- (ascii_N_embedding y). now rewrite Hx.
    + apply IH; [now injection Hlen|]. now apply N.eqb_eq.
Qed.

(** C2.  A webhook request without the signature header (or with an empty
    one), or received when no secret is configured (or an empty one), or
    whose signature is not the HMAC of the raw body under the secret, is
    answered 401 and changes nothing: the state after the call is the state
    before it (no row is updated, the clock is not even read) and no event
    is emitted. *)
Theorem webhook_rejects_unauthenticated (env : Env) (secret : option string)
    (req : Reconciler.Request) (s : St) :
  Reconciler.header_X_Fiscal_Signature req = None
  \/ Reconciler.header_X_Fiscal_Signature req = Some ""
  \/ secret = None
  \/ secret = Some ""
  \/ (exists sig key,
        Reconciler.header_X_Fiscal_Signature req = Some sig
        /\ secret = Some key
        /\ sig <> hmacSha256Hex env key (Reconciler.text req)) ->
  Reconciler.webhook env secret req s
  = (Returned (Reconciler.json (Reconciler.ErrorJson "Invalid signature") 401), s, []).
Proof.
  intros H.
  unfold Reconciler.webhook.
  destruct H as [H|[H|[H|[H|(sig & key & Hs & Hk & Hne)]]]].
  - rewrite H. reflexivity.
  - rewrite H. reflexivity.
  - rewrite H. cbn [JS.truthy_str]. rewrite orb_true_r. reflexivity.
  - rewrite H. cbn [JS.truthy_str String.eqb negb]. rewrite orb_true_r. reflexivity.
  - rewrite Hs, Hk.
    destruct (negb (JS.truthy_str (Some sig)) || negb (JS.truthy_str (Some key)));
      [reflexivity|].
    cbn [JS.known].
    destruct (String.length sig =? String.length (hmacSha256Hex env key (Reconciler.text req)))%nat
      eqn:Hlen; [|reflexivity].
    destruct (JS.timingSafeEqual sig (hmacSha256Hex env key (Reconciler.text req))) eqn:Heq;
      [|reflexivity].
    apply Nat.eqb_eq in Hlen.
    apply timingSafeEqual_eq in Heq; [contradiction|exact Hlen].
Qed.


Lemma webhook_rejects_unauthenticated_witness :
  Reconciler.webhook Scenario.reconciling (Some "s3cret")
    (Scenario.unsigned "authorized") Scenario.one_invoice
  = (Returned (Reconciler.json (Reconciler.ErrorJson "Invalid signature") 401),
     Scenario.one_invoice, []).
Proof.
  apply (webhook_rejects_unauthenticated Scenario.reconciling (Some "s3cret")
           (Scenario.unsigned "authorized") Scenario.one_invoice).
  left. reflexivity.
Defined.

(** A signature computed over another body is rejected as well. *)
Example tampered_body_is_rejected :
  Reconciler.webhook Scenario.reconciling (Some "s3cret")
    {| Reconciler.header_X_Fiscal_Signature := Some "mac:s3cret:authorized";
       Reconciler.text := "cancelled" |}
    Scenario.one_invoice
  = (Returned (Reconciler.json (Reconciler.ErrorJson "Invalid signature") 401),
     Scenario.one_invoice, []).
Proof.
  reflexivity.
Qed.

(** Run the route up to the end of its signature check. *)
Ltac pass_signature_check Hauth Hparse :=
  let sig := fresh "sig" in
  let key := fresh "key" in
  let Hs := fresh in let Hk := fresh in let Hsig := fresh in
  let Hkey := fresh in let Heq := fresh in
  destruct Hauth as (sig & key & Hs & Hk & Hsig & Hkey & Heq);
  unfold Reconciler.webhook;
  rewrite Hs, Hk; unfold JS.truthy_str at 1 2;
  destruct (String.eqb_spec sig "") as [|_]; [contradiction|];
  destruct (String.eqb_spec key "") as [|_]; [contradiction|];
  cbn [negb orb JS.known];
  rewrite <- Heq, Nat.eqb_refl, timingSafeEqual_refl;
  cbn [negb orb]; rewrite Hparse.

(** C9.  An authenticated webhook with status [authorized], once the
    database has taken the update, is answered 200; every invoice with the
    notification's reference becomes [authorized_row]: [status] is
    [authorized], [updatedAt] and [issuedAt] are the two readings of the
    clock, the invoice number and the two document URLs take the
    notification's value where it has a non-empty one and keep their own
    otherwise, and every other column -- the customer snapshot and the
    monetary and conversion columns among them -- is as it was.  The other
    invoices and the rest of the database are untouched. *)
Theorem authorized_webhook_update (env : Env) (secret : option string)
    (req : Reconciler.Request) (s : St) (data : WebhookData) :
  authenticated env secret req ->
  parseWebhook env (Reconciler.text req) = Some data ->
  wh_status data = "authorized" ->
  db_error env UpdateNfse = None ->
  Reconciler.webhook env secret req s
  = (Returned received,
     {| ticks := S (S (ticks s));
        db := reconcile (wh_reference data)
                (authorized_row data (clock env (ticks s)) (clock env (S (ticks s))))
                (db s) |},
     []).
Proof.
  intros Hauth Hparse Hstatus Hdb.
  pass_signature_check Hauth Hparse.
  unfold Reconciler.updateNfse, Reconciler.newDateSt.
  prog_step.
  rewrite Hstatus.
  change ("authorized" =? "authorized")%string with true.
  change ("authorized" =? "error")%string with false.
  change ("authorized" =? "cancelled")%string with false.
  prog_step. rewrite Hdb. prog_step.
  unfold with_db, with_ticks, reconcile. cbn [ticks db].
  match goal with
  | |- (_, {| ticks := _; db := {| userTaxInfo := _; nfse := map ?f ?l; nfse_id_seq := _ |} |}, _)
       = (_, {| ticks := _; db := {| userTaxInfo := _; nfse := map ?g ?l; nfse_id_seq := _ |} |}, _) =>
      rewrite (map_ext f g); [reflexivity|]
  end.
  intros row.
  destruct (fiscalNacionalReference row =? wh_reference data)%string; [|reflexivity].
  unfold authorized_row, Reconciler.set_columns, Reconciler.set_if_truthy.
  destruct (JS.truthy_str (wh_nfse_number data)) eqn:E1;
  destruct (JS.truthy_str (wh_pdf_url data)) eqn:E2;
  destruct (JS.truthy_str (wh_xml_url data)) eqn:E3;
  cbn;
  repeat match goal with
  | H : JS.truthy_str ?v = true |- _ => destruct v; [|discriminate H]; clear H
  end; reflexivity.
Qed.


Lemma authorized_webhook_update_witness :
  Reconciler.webhook Scenario.reconciling (Some "s3cret")
    (Scenario.signed "authorized") Scenario.one_invoice
  = (Returned received,
     {| ticks := 2;
        db := reconcile "R1"
                (authorized_row (Scenario.notification "authorized")
                   Scenario.noon_2026_11_02 (Scenario.noon_2026_11_02 + 1))
                (db Scenario.one_invoice) |},
     []).
Proof.
  apply (authorized_webhook_update Scenario.reconciling (Some "s3cret")
           (Scenario.signed "authorized") Scenario.one_invoice
           (Scenario.notification "authorized")).
  - exists "mac:s3cret:authorized", "s3cret".
    repeat split; try reflexivity; discriminate.
  - reflexivity.
  - reflexivity.
  - reflexivity.
Defined.

(** The invoice of the scenario after that notification: it has the number
    the notification brought, and keeps the PDF it had, which the
    notification did not mention. *)
Example authorized_webhook_keeps_the_known_pdf :
  map (fun row => (status row, nfseNumber row, pdfUrl row, xmlUrl row,
                   issuedAt row, customerDocument row))
    (nfse (db (final (Reconciler.webhook Scenario.reconciling (Some "s3cret")
                        (Scenario.signed "authorized") Scenario.one_invoice))))
  = [("authorized", Some "2026000017", Some "https://files.example/R1-draft.pdf",
      None, Some 1793620800001, Some "12345678909")].
Proof.
  reflexivity.
Qed.



(** The invoice of the scenario after a notification with the status
    [on_hold]: the string is stored, and nothing else but [updatedAt]
    moved. *)
Example unknown_status_is_stored :
  nfse (db (final (Reconciler.webhook Scenario.reconciling (Some "s3cret")
                     (Scenario.signed "on_hold") Scenario.one_invoice)))
  = [with_status "on_hold" Scenario.noon_2026_11_02 Scenario.invoice_R1].
Proof.
  reflexivity.
Qed.

(** The service method applies the update the route applies. *)
Lemma updateNFSeFromWebhook_as_the_route (env : Env) (secret : option string)
    (req : Reconciler.Request) (s : St) (data : WebhookData) :
  authenticated env secret req ->
  parseWebhook env (Reconciler.text req) = Some data ->
  db_error env UpdateNfse = None ->
  final (Reconciler.updateNFSeFromWebhook env (params_of data) s)
  = final (Reconciler.webhook env secret req s).
Proof.
  intros Hauth Hparse Hdb.
  pass_signature_check Hauth Hparse.
  unfold Reconciler.updateNFSeFromWebhook, Reconciler.updateNfse,
    Reconciler.newDateSt, params_of.
  cbn [Reconciler.p_reference Reconciler.p_status Reconciler.p_nfseNumber
       Reconciler.p_pdfUrl Reconciler.p_xmlUrl Reconciler.p_errorMessage].
  prog_step.
  destruct (wh_status data =? "authorized")%string;
  destruct (wh_status data =? "error")%string;
  destruct (wh_status data =? "cancelled")%string;
  prog_step; rewrite Hdb; prog_step; reflexivity.
Qed.
